(** * The research-aggregation pipeline of [app.py]

    A shallow embedding of the four classes [ArxivAPI], [SemanticScholarAPI],
    [GroqAI] and [ResearchAPI] of [src/app.py], together with the two
    presentation functions that read the citation block of the result.

    Python values are embedded as one universe [pyval]; a [str] is a list of
    Unicode code points; a [Dict[str, Any]] is a finite map from strings to
    values.  The three remote services and the process environment are an
    oracle ([world]) that may answer differently at every point of the run;
    every request and every Streamlit call is appended to a trace. *)

From Stdlib Require Import ZArith NArith QArith String Ascii DecimalString.
From stdpp Require Import base option list gmap.

#[local] Set Warnings "-register-all".
#[local] Open Scope Z_scope.

(** ** Strings *)

(** A Python [str]: its code points. *)
Abbreviation pystr := (list N).

(** An ASCII literal of the source. *)
Definition py (s : string) : pystr := N_of_ascii <$> list_ascii_of_string s.

(** The newline character of the source's string literals. *)
Definition nl : pystr := [10%N].

(** [str.isspace] on one code point (CPython's whitespace table). *)
Definition isspace (c : N) : bool :=
  ((9 <=? c) && (c <=? 13) || (28 <=? c) && (c <=? 32)
   || (c =? 0x85) || (c =? 0xA0) || (c =? 0x1680)
   || (0x2000 <=? c) && (c <=? 0x200A)
   || (c =? 0x2028) || (c =? 0x2029) || (c =? 0x202F)
   || (c =? 0x205F) || (c =? 0x3000))%N.

(** [s.lstrip()] *)
Fixpoint py_lstrip (s : pystr) : pystr :=
  match s with
  | [] => []
  | c :: s' => if isspace c then py_lstrip s' else s
  end.

(** [s.rstrip()] *)
Definition py_rstrip (s : pystr) : pystr := reverse (py_lstrip (reverse s)).

(** [s.strip()] *)
Definition py_strip (s : pystr) : pystr := py_rstrip (py_lstrip s).

(** Does [s] start with [p]?  ([s.startswith(p)]) *)
Fixpoint startswith (p s : pystr) : bool :=
  match p, s with
  | [], _ => true
  | _ :: _, [] => false
  | a :: p', b :: s' => (a =? b)%N && startswith p' s'
  end.

(** [s.split(sep)] for a non-empty separator: a left-to-right scan for
    non-overlapping occurrences.  [skip] counts the characters of an
    occurrence still to be passed over, [cur] is the piece being built. *)
Fixpoint split_go (sep : pystr) (skip : nat) (cur : pystr) (s : pystr) : list pystr :=
  match s with
  | [] => [cur]
  | c :: s' =>
      match skip with
      | S k => split_go sep k cur s'
      | O =>
          if startswith sep s
          then cur :: split_go sep (pred (length sep)) [] s'
          else split_go sep O (cur ++ [c]) s'
      end
  end.

Definition py_split (sep s : pystr) : list pystr := split_go sep O [] s.

(** [s.replace(old, new)] for a non-empty [old]. *)
Fixpoint replace_go (old new : pystr) (skip : nat) (s : pystr) : pystr :=
  match s with
  | [] => []
  | c :: s' =>
      match skip with
      | S k => replace_go old new k s'
      | O =>
          if startswith old s
          then new ++ replace_go old new (pred (length old)) s'
          else c :: replace_go old new O s'
      end
  end.

Definition py_replace (old new s : pystr) : pystr := replace_go old new O s.

(** [sep.join(pieces)] when every piece is a [str]. *)
Fixpoint join_strs (sep : pystr) (pieces : list pystr) : pystr :=
  match pieces with
  | [] => []
  | [p] => p
  | p :: rest => p ++ sep ++ join_strs sep rest
  end.

(** [str(n)] for an [int]. *)
Definition str_of_int (z : Z) : pystr := py (NilZero.string_of_int (Z.to_int z)).

(** ** Values *)

(** The values the program handles: what [json] decodes to, plus the
    dictionaries and lists the program builds itself. *)
Inductive pyval :=
| VNone
| VBool (b : bool)
| VInt (z : Z)
| VFloat (q : Q)
| VStr (s : pystr)
| VList (l : list pyval)
| VDict (d : gmap pystr pyval).

(** [Dict[str, Any]] *)
Abbreviation pydict := (gmap pystr pyval).

(** Truth value of an object, as tested by [if x:] and [x and ...]. *)
Definition truthy (v : pyval) : bool :=
  match v with
  | VNone => false
  | VBool b => b
  | VInt z => negb (z =? 0)
  | VFloat q => negb (Qeq_bool q 0)
  | VStr s => negb (bool_decide (s = []))
  | VList l => negb (bool_decide (length l = 0%nat))
  | VDict d => negb (bool_decide (size d = 0%nat))
  end.

(** [type(v).__name__] *)
Definition type_name (v : pyval) : pystr :=
  match v with
  | VNone => py "NoneType"
  | VBool _ => py "bool"
  | VInt _ => py "int"
  | VFloat _ => py "float"
  | VStr _ => py "str"
  | VList _ => py "list"
  | VDict _ => py "dict"
  end.


(** ** Exceptions *)

Inductive exn_class :=
| AttributeError | TypeError | KeyError | IndexError
| ExternalError. (* raised inside requests, ElementTree, json or groq *)

(** An exception: its class and [str(e)]. *)
Record exn := Exn { exn_class_of : exn_class; exn_msg : pystr }.

(** The outcome of evaluating an expression. *)
Inductive res (A : Type) :=
| Ok (a : A)
| Raise (e : exn).
Arguments Ok {A} a.
Arguments Raise {A} e.

Definition res_bind {A B} (r : res A) (k : A -> res B) : res B :=
  match r with
  | Ok a => k a
  | Raise e => Raise e
  end.

(** Evaluate [f] on the elements from left to right; stop at the first
    exception. *)
Fixpoint res_mapM {A B} (f : A -> res B) (l : list A) : res (list B) :=
  match l with
  | [] => Ok []
  | a :: l' =>
      res_bind (f a) (fun b =>
      res_bind (res_mapM f l') (fun bs => Ok (b :: bs)))
  end.

Definition no_attribute (v : pyval) (attr : string) : exn :=
  Exn AttributeError
      (py "'" ++ type_name v ++ py "' object has no attribute '" ++ py attr ++ py "'").

Definition not_subscriptable (v : pyval) : exn :=
  Exn TypeError (py "'" ++ type_name v ++ py "' object is not subscriptable").

Definition not_iterable (v : pyval) : exn :=
  Exn TypeError (py "'" ++ type_name v ++ py "' object is not iterable").

(** [str(KeyError(k))] is [repr(k)]; the keys the program looks up are plain
    ASCII literals, whose [repr] is the literal in single quotes. *)
Definition key_error (k : pystr) : exn :=
  Exn KeyError (py "'" ++ k ++ py "'").

(** ** Operations on objects *)

(** Iterating over an object ([for x in v], [enumerate(v, 1)], the argument
    of [join]).  A [str] yields its characters; a [dict] yields its keys
    (here in the map's order, in Python in insertion order). *)
Definition py_iter (v : pyval) : res (list pyval) :=
  match v with
  | VList l => Ok l
  | VStr s => Ok ((fun c => VStr [c]) <$> s)
  | VDict d => Ok (VStr <$> (map_to_list d).*1)
  | _ => Raise (not_iterable v)
  end.

(** The items of a [join] must all be strings; [i] is the index of the
    first item. *)
Fixpoint join_items (i : Z) (items : list pyval) : res (list pystr) :=
  match items with
  | [] => Ok []
  | VStr s :: rest => res_bind (join_items (i + 1) rest) (fun ps => Ok (s :: ps))
  | v :: _ =>
      Raise (Exn TypeError
               (py "sequence item " ++ str_of_int i ++ py ": expected str instance, "
                ++ type_name v ++ py " found"))
  end.

(** [sep.join(v)] *)
Definition py_join (sep : pystr) (v : pyval) : res pystr :=
  match py_iter v with
  | Raise _ => Raise (Exn TypeError (py "can only join an iterable"))
  | Ok items => res_bind (join_items 0 items) (fun ps => Ok (join_strs sep ps))
  end.

(** [len(v)] *)
Definition py_len (v : pyval) : res Z :=
  match v with
  | VList l => Ok (Z.of_nat (length l))
  | VStr s => Ok (Z.of_nat (length s))
  | VDict d => Ok (Z.of_nat (size d))
  | _ => Raise (Exn TypeError (py "object of type '" ++ type_name v ++ py "' has no len()"))
  end.

(** [v[:n]] *)
Definition py_slice_to (n : nat) (v : pyval) : res pyval :=
  match v with
  | VList l => Ok (VList (take n l))
  | VStr s => Ok (VStr (take n s))
  | VDict _ => Raise (Exn TypeError (py "unhashable type: 'slice'"))
  | _ => Raise (not_subscriptable v)
  end.

(** [d[k]] on a dictionary *)
Definition dict_getitem (d : pydict) (k : pystr) : res pyval :=
  match d !! k with
  | Some v => Ok v
  | None => Raise (key_error k)
  end.

(** [d.get(k, default)] on a dictionary *)
Definition dict_get (d : pydict) (k : pystr) (dflt : pyval) : pyval :=
  default dflt (d !! k).

(** [v[k]] for a string key [k] on any object *)
Definition py_getitem (v : pyval) (k : pystr) : res pyval :=
  match v with
  | VDict d => dict_getitem d k
  | VList _ => Raise (Exn TypeError (py "list indices must be integers or slices, not str"))
  | VStr _ => Raise (Exn TypeError (py "string indices must be integers, not 'str'"))
  | _ => Raise (not_subscriptable v)
  end.

(** [v.get(k, default)] on any object *)
Definition py_get (v : pyval) (k : pystr) (dflt : pyval) : res pyval :=
  match v with
  | VDict d => Ok (dict_get d k dflt)
  | _ => Raise (no_attribute v "get")
  end.



Section Formatting.
  (** [str(v)] of a float, a list or a dict is the interpreter's [repr];
      it is left abstract. *)
Variable str_other : pyval -> pystr.

  (** [str(v)], which is also what an f-string field [{v}] inserts. *)
Definition py_str (v : pyval) : pystr :=
    match v with
    | VNone => py "None"
    | VBool true => py "True"
    | VBool false => py "False"
    | VInt z => str_of_int z
    | VStr s => s
    | _ => str_other v
    end.
End Formatting.

(** ** The Atom feed *)

(** An [xml.etree.ElementTree.Element]: tag, text and child elements. *)
Inductive element := Element (tag : pystr) (text : option pystr) (children : list element).

Definition tag_of (e : element) : pystr := let 'Element t _ _ := e in t.
Definition text_of (e : element) : option pystr := let 'Element _ t _ := e in t.
Definition children_of (e : element) : list element := let 'Element _ _ c := e in c.

(** [e.findall(tag)]: the direct children with that tag, in document order. *)
Definition findall (tag : pystr) (e : element) : list element :=
  filter (fun c => tag_of c = tag) (children_of e).

(** [e.find(tag)]: the first such child, or [None]. *)
Definition find (tag : pystr) (e : element) : option element :=
  head (findall tag e).

(** [x.text] where [x] is the result of a [find]. *)
Definition dot_text (x : option element) : res (option pystr) :=
  match x with
  | Some e => Ok (text_of e)
  | None => Raise (no_attribute VNone "text")
  end.

(** A text as an object: [None] or a [str]. *)
Definition text_val (t : option pystr) : pyval :=
  match t with
  | Some s => VStr s
  | None => VNone
  end.

(** [t.strip()] *)
Definition dot_strip (t : option pystr) : res pystr :=
  match t with
  | Some s => Ok (py_strip s)
  | None => Raise (no_attribute VNone "strip")
  end.

(** [t.split(sep)] *)
Definition dot_split (sep : pystr) (t : option pystr) : res (list pystr) :=
  match t with
  | Some s => Ok (py_split sep s)
  | None => Raise (no_attribute VNone "split")
  end.

(** [l[-1]] *)
Definition last_item (l : list pystr) : res pystr :=
  match last l with
  | Some s => Ok s
  | None => Raise (Exn IndexError (py "list index out of range"))
  end.

Definition atom (name : string) : pystr := py "{http://www.w3.org/2005/Atom}" ++ py name.

(** ** The outside world *)

(** The Streamlit calls of the modelled functions. *)
Inductive st_call :=
| StError (body : pystr)
| StMarkdown (body : pystr)
| StColumns (n : Z)
| StMetric (label : pystr) (value : pyval)
| StInfo (body : pystr)
| StPlotlyChart (citations references : pyval).

(** What the program does to the outside, in the order it does it. *)
Inductive event :=
| ArxivRequest (search_query : pystr) (start max_results : Z) (sortBy sortOrder : pystr)
| ScholarRequest (url : pystr)
| Getenv (name : pystr)
| GroqRequest (model prompt : pystr) (temperature : Q)
| Streamlit (c : st_call).

(** The answer to [requests.get(base_url, params=params)]: the call raises,
    or there is a response with a status, the error [raise_for_status]
    raises for a 4xx or 5xx status, and what [ET.fromstring] makes of the
    content. *)
Inductive arxiv_reply :=
| ArxivUnreachable (e : exn)
| ArxivResponse (status_code : Z) (http_error : exn) (document : res element).

(** The answer to [requests.get(search_url, headers=headers, timeout=10)]:
    the call raises (a timeout included), or there is a response with a
    status and what [response.json()] gives, a [Dict[str, Any]] as the
    signature of [get_paper_details] has it. *)
Inductive scholar_reply :=
| ScholarUnreachable (e : exn)
| ScholarResponse (status_code : Z) (json : res pydict).

(** The answer to [groq_client.chat.completions.create(...)] followed by
    [response.choices[0].message.content]: an exception, or the content,
    which the API allows to be [None]. *)
Inductive groq_reply :=
| GroqFails (e : exn)
| GroqCompletion (content : option pystr).

(** The world answers a request knowing everything that happened so far
    (the trace ends with the request itself). *)
Record world := World {
  arxiv_reply_at : list event -> arxiv_reply;
  scholar_reply_at : list event -> scholar_reply;
  groq_reply_at : list event -> groq_reply;
  getenv_at : list event -> option pystr;
  str_other : pyval -> pystr
}.

(** The state of the process: the trace, and the cache that
    [@st.cache_resource] keeps for [get_groq_client] ([None]: not called yet;
    [Some true]: a client; [Some false]: the cached [None]). *)
Record state := State {
  trace : list event;
  groq_client_cache : option bool
}.

(** ** Computations *)

(** A computation reads the world, changes the state, and returns or
    raises; the state changes made before an exception are kept. *)
Definition M (A : Type) : Type := world -> state -> res A * state.

#[export] Instance M_ret : MRet M := fun A a _ st => (Ok a, st).

#[export] Instance M_bind : MBind M := fun A B k c w st =>
  match c w st with
  | (Ok a, st') => k a w st'
  | (Raise e, st') => (Raise e, st')
  end.

(** A pure expression inside a computation. *)
Definition lift {A} (r : res A) : M A := fun _ st => (r, st).

(** [try: body except Exception as e: handler] *)
Definition try_except {A} (body : M A) (handler : exn -> M A) : M A := fun w st =>
  match body w st with
  | (Ok a, st') => (Ok a, st')
  | (Raise e, st') => handler e w st'
  end.

Definition emit (e : event) : M unit := fun _ st =>
  (Ok tt, State (trace st ++ [e]) (groq_client_cache st)).

(** Send a request [e] and read the world's answer to it. *)
Definition ask {A} (e : event) (answer : world -> list event -> A) : M A := fun w st =>
  let tr := trace st ++ [e] in
  (Ok (answer w tr), State tr (groq_client_cache st)).

Definition read_cache : M (option bool) := fun _ st => (Ok (groq_client_cache st), st).

Definition write_cache (c : bool) : M unit := fun _ st => (Ok tt, State (trace st) (Some c)).

(** [str(v)] in the running interpreter. *)
Definition str (v : pyval) : M pystr := fun w st => (Ok (py_str (str_other w) v), st).

Definition st_error (body : pystr) : M unit := emit (Streamlit (StError body)).

(** ** [get_groq_client] *)

(** The body runs once; later calls return the cached value, and Streamlit
    replays the elements the body drew ([st.error] when the key is missing). *)
Definition get_groq_client : M bool :=
  cached ← read_cache;
  match cached with
  | Some true => mret true
  | Some false =>
      st_error (py "GROQ_API_KEY environment variable not set!");; mret false
  | None =>
      api_key ← ask (Getenv (py "GROQ_API_KEY")) getenv_at;
      if negb (truthy (text_val api_key))
      then st_error (py "GROQ_API_KEY environment variable not set!");;
           write_cache false;; mret false
      else write_cache true;; mret true
  end.

(** ** [class ArxivAPI] *)

Module ArxivAPI.

  (** The dictionary built for one [entry] of the feed; the fields are
      evaluated in the order of the dictionary display. *)
Definition paper_of_entry (entry : element) : res pydict :=
    res_bind (dot_text (find (atom "title") entry)) (fun title_text =>
    res_bind (dot_strip title_text) (fun title =>
    res_bind (res_mapM (fun author => dot_text (find (atom "name") author))
                (findall (atom "author") entry)) (fun authors =>
    res_bind (dot_text (find (atom "summary") entry)) (fun summary_text =>
    res_bind (dot_strip summary_text) (fun abstract =>
    res_bind (dot_text (find (atom "published") entry)) (fun published_text =>
    res_bind (py_slice_to 10 (text_val published_text)) (fun published =>
    res_bind (dot_text (find (atom "id") entry)) (fun url =>
    res_bind (dot_text (find (atom "id") entry)) (fun id_text =>
    res_bind (dot_split (py "/") id_text) (fun segments =>
    res_bind (last_item segments) (fun arxiv_id =>
    Ok (<[py "title" := VStr title]>
       (<[py "authors" := VList (text_val <$> authors)]>
       (<[py "abstract" := VStr abstract]>
       (<[py "published" := published]>
       (<[py "url" := text_val url]>
       (<[py "arxiv_id" := VStr arxiv_id]> (∅ : pydict)))))))))))))))))).

  (** [response.raise_for_status()] *)
Definition raise_for_status (status_code : Z) (http_error : exn) : res unit :=
    if (400 <=? status_code) && (status_code <? 600) then Raise http_error else Ok tt.

Definition search_papers (query : pystr) (max_results : Z) : M (list pydict) :=
    try_except
      (response ← ask (ArxivRequest (py "all:" ++ query) 0 max_results
                          (py "relevance") (py "descending")) arxiv_reply_at;
       match response with
       | ArxivUnreachable e => lift (Raise e)
       | ArxivResponse status_code http_error document =>
           lift (raise_for_status status_code http_error);;
           root ← lift document;
           lift (res_mapM paper_of_entry (findall (atom "entry") root))
       end)
      (fun e =>
         st_error (py "Error fetching from arXiv: " ++ exn_msg e);;
         mret []).

End ArxivAPI.

(** ** [class SemanticScholarAPI] *)

Module SemanticScholarAPI.

Definition get_paper_details (arxiv_id : pyval) : M pydict :=
    try_except
      (id ← str arxiv_id;
       response ← ask (ScholarRequest
                          (py "https://api.semanticscholar.org/graph/v1/paper/arXiv:" ++ id))
                      scholar_reply_at;
       match response with
       | ScholarUnreachable e => lift (Raise e)
       | ScholarResponse status_code json =>
           if status_code =? 200
           then data ← lift json; mret data
           else mret ∅
       end)
      (fun _ => mret ∅).

Definition get_related_works (arxiv_id : pyval) : M pyval :=
    try_except
      (paper_data ← get_paper_details arxiv_id;
       if truthy (VDict paper_data) && bool_decide (is_Some (paper_data !! py "references"))
       then lift (py_slice_to 5 (dict_get paper_data (py "references") (VList [])))
       else mret (VList []))
      (fun _ => mret (VList [])).

End SemanticScholarAPI.

(** ** [class GroqAI] *)

Module GroqAI.

  (** The indentation of the prompt templates in the source. *)
Definition indent : pystr := py "        ".

  (** A triple-quoted template: a newline and the indentation before every
      line, and after the last one. *)
Definition template (lines : list pystr) : pystr :=
    mjoin ((fun line => nl ++ indent ++ line) <$> lines) ++ nl ++ indent.

  (** [abstracts = [paper["abstract"] for paper in papers]] and
      [combined_text = "\n\n".join(abstracts)] *)
Definition combined_text (papers : list pydict) : res pystr :=
    res_bind (res_mapM (fun paper => dict_getitem paper (py "abstract")) papers)
      (fun abstracts => py_join (nl ++ nl) (VList abstracts)).

  (** One completion request: the model and the single user message are
      the same in the five operations, the prompt and the temperature vary. *)
Definition chat_completions_create (prompt : pystr) (temperature : Q) : M (option pystr) :=
    response ← ask (GroqRequest (py "llama-3.1-8b-instant") prompt temperature) groq_reply_at;
    match response with
    | GroqFails e => lift (Raise e)
    | GroqCompletion content => mret content
    end.

Definition summarize_prompt (text : pystr) : pystr :=
    template [ py "Please provide a comprehensive summary of the following research papers. ";
               py "Focus on the main findings, methodologies, and key insights:";
               [];
               text;
               [];
               py "Provide a clear, structured summary highlighting the most important points." ].

Definition summarize_papers (papers : list pydict) : M pyval :=
    groq_client ← get_groq_client;
    if negb groq_client then mret (VStr (py "Error: Groq client not available")) else
    text ← lift (combined_text papers);
    try_except
      (content ← chat_completions_create (summarize_prompt text) 0.3;
       mret (text_val content))
      (fun e => mret (VStr (py "Error generating summary: " ++ exn_msg e))).

Definition explain_prompt (text : pystr) : pystr :=
    template [ py "Explain the following research in simple terms that a 15-year-old would understand.";
               py "Use analogies and avoid technical jargon:";
               [];
               text;
               [];
               py "Make it engaging and easy to understand." ].

Definition explain_like_15 (papers : list pydict) : M pyval :=
    groq_client ← get_groq_client;
    if negb groq_client then mret (VStr (py "Error: Groq client not available")) else
    text ← lift (combined_text papers);
    try_except
      (content ← chat_completions_create (explain_prompt text) 0.5;
       mret (text_val content))
      (fun e => mret (VStr (py "Error generating explanation: " ++ exn_msg e))).

Definition keywords_prompt (text : pystr) : pystr :=
    template [ py "Extract the most important keywords and key terms from this research:";
               [];
               text;
               [];
               py "Return only a list of 10-15 key terms, separated by commas." ].

  (** [[kw.strip() for kw in keywords if kw.strip()]] *)
Definition stripped_nonempty (keywords : list pystr) : list pystr :=
    py_strip <$> filter (fun kw => truthy (VStr (py_strip kw)) = true) keywords.

Definition extract_keywords (papers : list pydict) : M pyval :=
    groq_client ← get_groq_client;
    if negb groq_client then mret (VList []) else
    text ← lift (combined_text papers);
    try_except
      (content ← chat_completions_create (keywords_prompt text) 0.2;
       keywords ← lift (dot_split (py ",") content);
       mret (VList (VStr <$> stripped_nonempty keywords)))
      (fun _ => mret (VList [])).

Definition trends_prompt (text : pystr) : pystr :=
    template [ py "Analyze the following research papers and identify:";
               py "1. Current trends in this field";
               py "2. Emerging patterns";
               py "3. Common methodologies";
               py "4. Key themes";
               [];
               py "Research abstracts:";
               text;
               [];
               py "Provide insights about the direction this field is heading." ].

Definition analyze_trends (papers : list pydict) : M pyval :=
    groq_client ← get_groq_client;
    if negb groq_client then mret (VStr (py "Error: Groq client not available")) else
    text ← lift (combined_text papers);
    try_except
      (content ← chat_completions_create (trends_prompt text) 0.4;
       mret (text_val content))
      (fun e => mret (VStr (py "Error analyzing trends: " ++ exn_msg e))).

Definition challenges_prompt (text : pystr) : pystr :=
    template [ py "Based on the following research papers, identify:";
               py "1. Open challenges mentioned";
               py "2. Limitations of current approaches";
               py "3. Future research directions";
               py "4. Unresolved questions";
               [];
               py "Research abstracts:";
               text;
               [];
               py "Focus on what problems still need to be solved." ].

Definition identify_challenges (papers : list pydict) : M pyval :=
    groq_client ← get_groq_client;
    if negb groq_client then mret (VStr (py "Error: Groq client not available")) else
    text ← lift (combined_text papers);
    try_except
      (content ← chat_completions_create (challenges_prompt text) 0.4;
       mret (text_val content))
      (fun e => mret (VStr (py "Error identifying challenges: " ++ exn_msg e))).

End GroqAI.

(** ** The markdown document of [ResearchAPI.export_results] *)

Module Markdown.

Section Render.
Variable str_other : pyval -> pystr.
Let fmt := py_str str_other.

    (** The f-string appended for paper number [i]. *)
Definition paper_section (i : Z) (paper : pyval) : res pystr :=
      res_bind (py_getitem paper (py "title")) (fun title =>
      res_bind (py_getitem paper (py "authors")) (fun authors =>
      res_bind (py_join (py ", ") authors) (fun joined =>
      res_bind (py_getitem paper (py "published")) (fun published =>
      res_bind (py_getitem paper (py "url")) (fun url =>
      res_bind (py_getitem paper (py "abstract")) (fun abstract =>
      Ok (py "### " ++ str_of_int i ++ py ". " ++ fmt title ++ nl
          ++ nl
          ++ py "**Authors:** " ++ joined ++ nl
          ++ py "**Published:** " ++ fmt published ++ nl
          ++ py "**URL:** " ++ fmt url ++ nl
          ++ nl
          ++ py "**Abstract:**" ++ nl
          ++ fmt abstract ++ nl
          ++ nl
          ++ py "---" ++ nl
          ++ nl))))))).

    (** [for i, paper in enumerate(papers, i): markdown_content += ...] *)
Fixpoint paper_sections (i : Z) (papers : list pyval) : res pystr :=
      match papers with
      | [] => Ok []
      | paper :: rest =>
          res_bind (paper_section i paper) (fun section =>
          res_bind (paper_sections (i + 1) rest) (fun sections =>
          Ok (section ++ sections)))
      end.

    (** The f-string appended for one related work. *)
Definition related_line (work : pyval) : res pystr :=
      res_bind (py_get work (py "title") (VStr (py "Unknown Title"))) (fun title =>
      Ok (py "- " ++ fmt title ++ nl)).

    (** The body of the [try] block. *)
Definition export_body (query : pystr) (search_result : pydict) : res pydict :=
      res_bind (dict_getitem search_result (py "papers")) (fun papers =>
      res_bind (py_len papers) (fun n =>
      let header :=
        py "# Research Summary: " ++ query ++ nl
        ++ nl
        ++ py "## Papers Found (" ++ str_of_int n ++ py ")" ++ nl
        ++ nl in
      res_bind (dict_getitem search_result (py "papers")) (fun papers =>
      res_bind (py_iter papers) (fun paper_list =>
      res_bind (paper_sections 1 paper_list) (fun sections =>
      res_bind (dict_getitem search_result (py "ai_summary")) (fun ai_summary =>
      res_bind (dict_getitem search_result (py "explain_like_15")) (fun explain_like_15 =>
      res_bind (dict_getitem search_result (py "keywords")) (fun keywords =>
      res_bind (py_join (py ", ") keywords) (fun joined_keywords =>
      res_bind (dict_getitem search_result (py "trends")) (fun trends =>
      res_bind (dict_getitem search_result (py "open_challenges")) (fun open_challenges =>
      let analysis :=
        nl
        ++ py "## AI Summary" ++ nl
        ++ nl
        ++ fmt ai_summary ++ nl
        ++ nl
        ++ py "## Explain Like I'm 15" ++ nl
        ++ nl
        ++ fmt explain_like_15 ++ nl
        ++ nl
        ++ py "## Keywords" ++ nl
        ++ nl
        ++ joined_keywords ++ nl
        ++ nl
        ++ py "## Trends & Insights" ++ nl
        ++ nl
        ++ fmt trends ++ nl
        ++ nl
        ++ py "## Open Challenges" ++ nl
        ++ nl
        ++ fmt open_challenges ++ nl
        ++ nl
        ++ py "## Related Works" ++ nl
        ++ nl in
      res_bind (dict_getitem search_result (py "related_works")) (fun related_works =>
      res_bind (py_slice_to 5 related_works) (fun first_five =>
      res_bind (py_iter first_five) (fun works =>
      res_bind (res_mapM related_line works) (fun lines =>
      let markdown_content := header ++ sections ++ analysis ++ mjoin lines in
      Ok (<[py "content" := VStr markdown_content]>
         (<[py "filename" :=
              VStr (py "research_summary_" ++ py_replace (py " ") (py "_") query ++ py ".md")]>
            (∅ : pydict)))))))))))))))))).
End Render.

End Markdown.

(** ** [class ResearchAPI] *)

Module ResearchAPI.

  (** The two shapes of [citation_counts]: the counts of the looked-up
      record, or the fallback when the record is empty. *)
Definition citation_counts_of (paper_details : pydict) : pydict :=
    if truthy (VDict paper_details)
    then <[py "citations" := dict_get paper_details (py "citationCount") (VInt 0)]>
        (<[py "references" := dict_get paper_details (py "referenceCount") (VInt 0)]> ∅)
    else <[py "citations" := VInt 0]>
        (<[py "references" := VInt 0]>
        (<[py "status" := VStr (py "Semantic Scholar unavailable")]> ∅)).

  (** [papers[0]["arxiv_id"]] *)
Definition first_arxiv_id (papers : list pydict) : res pyval :=
    match papers !! 0%nat with
    | Some paper => dict_getitem paper (py "arxiv_id")
    | None => Raise (Exn IndexError (py "list index out of range"))
    end.

Definition search_papers (query : pystr) : M (option pydict) :=
    if negb (truthy (VStr query))
    then st_error (py "Query is required");; mret None
    else
    try_except
      (papers ← ArxivAPI.search_papers query 5;
       if negb (truthy (VList (VDict <$> papers)))
       then st_error (py "No papers found for the given query");; mret None
       else
       '(related_works, citation_counts) ←
         (if truthy (VList (VDict <$> papers))
          then
            first_paper_id ← lift (first_arxiv_id papers);
            paper_details ← SemanticScholarAPI.get_paper_details first_paper_id;
            related_works ← SemanticScholarAPI.get_related_works first_paper_id;
            mret (related_works, citation_counts_of paper_details)
          else mret (VList [], ∅));
       ai_summary ← GroqAI.summarize_papers papers;
       explain_like_15 ← GroqAI.explain_like_15 papers;
       keywords ← GroqAI.extract_keywords papers;
       trends ← GroqAI.analyze_trends papers;
       open_challenges ← GroqAI.identify_challenges papers;
       mret (Some
         (<[py "papers" := VList (VDict <$> papers)]>
         (<[py "ai_summary" := ai_summary]>
         (<[py "explain_like_15" := explain_like_15]>
         (<[py "keywords" := keywords]>
         (<[py "related_works" := related_works]>
         (<[py "citation_counts" := VDict citation_counts]>
         (<[py "trends" := trends]>
         (<[py "open_challenges" := open_challenges]> (∅ : pydict)))))))))))
      (fun e =>
         st_error (py "Error during search: " ++ exn_msg e);;
         mret None).

Definition export_results (query : pystr) (search_result : pydict) : M (option pydict) :=
    try_except
      (fun w => (exported ← lift (Markdown.export_body (str_other w) query search_result);
                 mret (Some exported)) w)
      (fun e =>
         st_error (py "Error generating export: " ++ exn_msg e);;
         mret None).

End ResearchAPI.

(** ** The citation block of the presentation layer *)




(** * Vocabulary of the statements *)

(** The requests the program sends. *)
Definition arxiv_request (query : pystr) (max_results : Z) : event :=
  ArxivRequest (py "all:" ++ query) 0 max_results (py "relevance") (py "descending").

Definition scholar_request (id : pystr) : event :=
  ScholarRequest (py "https://api.semanticscholar.org/graph/v1/paper/arXiv:" ++ id).

Definition groq_request (prompt : pystr) (temperature : Q) : event :=
  GroqRequest (py "llama-3.1-8b-instant") prompt temperature.

(** The state after the events [new] have been added to the trace. *)
Definition record (st : state) (new : list event) : state :=
  State (trace st ++ new) (groq_client_cache st).

(** Which events are calls of which external source. *)
Definition paper_source_call (e : event) : bool :=
  match e with ArxivRequest _ _ _ _ _ => true | _ => false end.

Definition enrichment_call (e : event) : bool :=
  match e with ScholarRequest _ => true | _ => false end.

Definition analysis_call (e : event) : bool :=
  match e with GroqRequest _ _ _ => true | _ => false end.

Definition external_call (e : event) : bool :=
  paper_source_call e || enrichment_call e || analysis_call e.

(** What the body of [ArxivAPI.search_papers] makes of a reply. *)
Definition arxiv_outcome (r : arxiv_reply) : res (list pydict) :=
  match r with
  | ArxivUnreachable e => Raise e
  | ArxivResponse status_code http_error document =>
      res_bind (ArxivAPI.raise_for_status status_code http_error) (fun _ =>
      res_bind document (fun root =>
      res_mapM ArxivAPI.paper_of_entry (findall (atom "entry") root)))
  end.

(** An entry without one of the elements every paper needs. *)
Definition lacks_required_field (entry : element) : Prop :=
  find (atom "title") entry = None \/ find (atom "summary") entry = None
  \/ find (atom "published") entry = None \/ find (atom "id") entry = None.

(** ** Sample data *)

Definition leaf (name text : string) : element := Element (atom name) (Some (py text)) [].

Definition author (name : string) : element := Element (atom "author") None [leaf "name" name].

(** A complete entry of the feed. *)
Definition sample_entry : element :=
  Element (atom "entry") None
    [ leaf "id" "http://arxiv.org/abs/2001.00001v1";
      leaf "published" "2020-01-02T03:04:05Z";
      leaf "title" " Deep nets ";
      leaf "summary" " We study nets. ";
      author "Ann"; author "Bob" ].

(** The paper [ArxivAPI.search_papers] builds from it. *)
Definition sample_paper : pydict :=
  <[py "title" := VStr (py "Deep nets")]>
  (<[py "authors" := VList [VStr (py "Ann"); VStr (py "Bob")]]>
  (<[py "abstract" := VStr (py "We study nets.")]>
  (<[py "published" := VStr (py "2020-01-02")]>
  (<[py "url" := VStr (py "http://arxiv.org/abs/2001.00001v1")]>
  (<[py "arxiv_id" := VStr (py "2001.00001v1")]> ∅))))).

(** An entry whose title element is missing. *)
Definition entry_without_title : element :=
  Element (atom "entry") None
    [ leaf "id" "http://arxiv.org/abs/2001.00002v1";
      leaf "published" "2020-02-03T00:00:00Z";
      leaf "summary" "No title here.";
      author "Cy" ].

Definition feed (entries : list element) : element := Element (atom "feed") None entries.

Definition timeout : exn := Exn ExternalError (py "Read timed out.").
Definition not_found : exn := Exn ExternalError (py "404 Client Error: Not Found").

(** A world that gives the same answers whenever it is asked. *)
Definition constant_world (a : arxiv_reply) (s : scholar_reply) (g : groq_reply) : world :=
  World (fun _ => a) (fun _ => s) (fun _ => g)
        (fun _ => Some (py "gsk_test")) (fun _ => py "<object>").

(** A process that has not looked for its Groq client yet. *)
Definition fresh_process : state := State [] None.

Definition good_then_bad_world : world :=
  constant_world (ArxivResponse 200 not_found (Ok (feed [sample_entry; entry_without_title])))
                 (ScholarResponse 404 (Raise not_found))
                 (GroqCompletion (Some (py "nets, depth"))).

Definition empty_feed_world : world :=
  constant_world (ArxivResponse 200 not_found (Ok (feed [])))
                 (ScholarResponse 404 (Raise not_found))
                 (GroqCompletion (Some (py "nets, depth"))).

(** ** The enrichment source in closed form *)

(** The record [get_paper_details] returns for a reply. *)
Definition scholar_outcome (r : scholar_reply) : pydict :=
  match r with
  | ScholarUnreachable _ => ∅
  | ScholarResponse status_code json =>
      if status_code =? 200
      then match json with Ok data => data | Raise _ => ∅ end
      else ∅
  end.

(** The related works [get_related_works] derives from a record. *)
Definition related_of (paper_data : pydict) : pyval :=
  if truthy (VDict paper_data) && bool_decide (is_Some (paper_data !! py "references"))
  then match py_slice_to 5 (dict_get paper_data (py "references") (VList [])) with
       | Ok works => works
       | Raise _ => VList []
       end
  else VList [].

(** A lookup that fails: no response, a status other than 200, or a body
    that is not JSON. *)
Definition lookup_failed (r : scholar_reply) : bool :=
  match r with
  | ScholarUnreachable _ => true
  | ScholarResponse status_code json =>
      negb (status_code =? 200) || match json with Raise _ => true | Ok _ => false end
  end.

(** The citation block of a bundle whose lookup failed. *)
Definition unavailable_counts : pydict :=
  <[py "citations" := VInt 0]>
  (<[py "references" := VInt 0]>
  (<[py "status" := VStr (py "Semantic Scholar unavailable")]> ∅)).

(** ** The analysis engine in closed form *)

(** The five operations of [GroqAI]. *)
Inductive analysis_op := Summarize | Explain | Keywords | Trends | Challenges.

Definition run_op (op : analysis_op) : list pydict -> M pyval :=
  match op with
  | Summarize => GroqAI.summarize_papers
  | Explain => GroqAI.explain_like_15
  | Keywords => GroqAI.extract_keywords
  | Trends => GroqAI.analyze_trends
  | Challenges => GroqAI.identify_challenges
  end.

Definition prompt_of (op : analysis_op) : pystr -> pystr :=
  match op with
  | Summarize => GroqAI.summarize_prompt
  | Explain => GroqAI.explain_prompt
  | Keywords => GroqAI.keywords_prompt
  | Trends => GroqAI.trends_prompt
  | Challenges => GroqAI.challenges_prompt
  end.

Definition temperature_of (op : analysis_op) : Q :=
  match op with
  | Summarize => 0.3
  | Explain => 0.5
  | Keywords => 0.2
  | Trends => 0.4
  | Challenges => 0.4
  end.

(** The field of the bundle an operation fills. *)
Definition field_of (op : analysis_op) : pystr :=
  match op with
  | Summarize => py "ai_summary"
  | Explain => py "explain_like_15"
  | Keywords => py "keywords"
  | Trends => py "trends"
  | Challenges => py "open_challenges"
  end.

Definition error_prefix (op : analysis_op) : pystr :=
  match op with
  | Summarize => py "Error generating summary: "
  | Explain => py "Error generating explanation: "
  | Keywords => []
  | Trends => py "Error analyzing trends: "
  | Challenges => py "Error identifying challenges: "
  end.

(** What a field becomes when its call raises [e]. *)
Definition degraded (op : analysis_op) (e : exn) : pyval :=
  match op with
  | Keywords => VList []
  | _ => VStr (error_prefix op ++ exn_msg e)
  end.

(** What a field becomes when there is no client. *)
Definition no_client (op : analysis_op) : pyval :=
  match op with
  | Keywords => VList []
  | _ => VStr (py "Error: Groq client not available")
  end.

(** The keyword list read off a completion. *)
Definition keywords_of_content (content : option pystr) : pyval :=
  match content with
  | Some text => VList (VStr <$> GroqAI.stripped_nonempty (py_split (py ",") text))
  | None => VList []
  end.

(** What a field becomes for a reply of the backend. *)
Definition field_of_reply (op : analysis_op) (r : groq_reply) : pyval :=
  match r with
  | GroqFails e => degraded op e
  | GroqCompletion content =>
      match op with
      | Keywords => keywords_of_content content
      | _ => text_val content
      end
  end.

Definition key_missing : event :=
  Streamlit (StError (py "GROQ_API_KEY environment variable not set!")).

(** Whether [get_groq_client] returns a client, and the state it leaves. *)
Definition client_available (w : world) (st : state) : bool :=
  match groq_client_cache st with
  | Some client => client
  | None => truthy (text_val (getenv_at w (trace st ++ [Getenv (py "GROQ_API_KEY")])))
  end.

Definition after_client (w : world) (st : state) : state :=
  match groq_client_cache st with
  | Some true => st
  | Some false => record st [key_missing]
  | None =>
      let tr := trace st ++ [Getenv (py "GROQ_API_KEY")] in
      if truthy (text_val (getenv_at w tr))
      then State tr (Some true)
      else State (tr ++ [key_missing]) (Some false)
  end.

(** The request of an operation on the combined abstracts [text]. *)
Definition request_of (op : analysis_op) (text : pystr) : event :=
  groq_request (prompt_of op text) (temperature_of op).

(** The value an operation returns, and the state it leaves. *)
Definition analysis_value (op : analysis_op) (text : pystr) (w : world) (st : state) : pyval :=
  if client_available w st
  then field_of_reply op (groq_reply_at w (trace (after_client w st) ++ [request_of op text]))
  else no_client op.

Definition after_analysis (op : analysis_op) (text : pystr) (w : world) (st : state) : state :=
  if client_available w st
  then record (after_client w st) [request_of op text]
  else after_client w st.

(** ** The aggregator in closed form *)

(** The identifier of the first paper and the combined abstracts, for
    papers that have them (as every paper built from a feed has). *)
Definition first_id (papers : list pydict) : pystr :=
  match ResearchAPI.first_arxiv_id papers with
  | Ok (VStr id) => id
  | _ => []
  end.

Definition abstracts_text (papers : list pydict) : pystr :=
  match GroqAI.combined_text papers with
  | Ok text => text
  | Raise _ => []
  end.

(** The dictionary [ResearchAPI.search_papers] returns. *)
Definition bundle_of (papers : list pydict)
    (ai_summary explain_like_15 keywords related_works : pyval)
    (citation_counts : pydict) (trends open_challenges : pyval) : pydict :=
  <[py "papers" := VList (VDict <$> papers)]>
  (<[py "ai_summary" := ai_summary]>
  (<[py "explain_like_15" := explain_like_15]>
  (<[py "keywords" := keywords]>
  (<[py "related_works" := related_works]>
  (<[py "citation_counts" := VDict citation_counts]>
  (<[py "trends" := trends]>
  (<[py "open_challenges" := open_challenges]> ∅))))))).

(** Enrichment and analysis of a non-empty list of papers, from the state
    [st1] the paper search left: the bundle and the final state. *)
Definition pipeline (w : world) (papers : list pydict) (st1 : state) : pydict * state :=
  let lookup := scholar_request (first_id papers) in
  let text := abstracts_text papers in
  let paper_details := scholar_outcome (scholar_reply_at w (trace st1 ++ [lookup])) in
  let st2 := record st1 [lookup] in
  let related_works := related_of (scholar_outcome (scholar_reply_at w (trace st2 ++ [lookup]))) in
  let st3 := record st2 [lookup] in
  let st4 := after_analysis Summarize text w st3 in
  let st5 := after_analysis Explain text w st4 in
  let st6 := after_analysis Keywords text w st5 in
  let st7 := after_analysis Trends text w st6 in
  let st8 := after_analysis Challenges text w st7 in
  (bundle_of papers
     (analysis_value Summarize text w st3)
     (analysis_value Explain text w st4)
     (analysis_value Keywords text w st5)
     related_works
     (ResearchAPI.citation_counts_of paper_details)
     (analysis_value Trends text w st6)
     (analysis_value Challenges text w st7),
   st8).

Definition no_papers_found : event :=
  Streamlit (StError (py "No papers found for the given query")).

(** The result of [ResearchAPI.search_papers] and the state it leaves. *)
Definition search_outcome (w : world) (st : state) (query : pystr) : option pydict * state :=
  match query with
  | [] => (None, record st [Streamlit (StError (py "Query is required"))])
  | _ =>
      let st1 := record st [arxiv_request query 5] in
      match arxiv_outcome (arxiv_reply_at w (trace st1)) with
      | Raise e =>
          (None, record st1 [Streamlit (StError (py "Error fetching from arXiv: " ++ exn_msg e));
                             no_papers_found])
      | Ok [] => (None, record st1 [no_papers_found])
      | Ok papers =>
          let '(bundle, st') := pipeline w papers st1 in (Some bundle, st')
      end
  end.

(** ** Reading a result *)





(** ** More sample data *)


(** One paper; Semantic Scholar does not know it. *)
Definition unknown_paper_world : world :=
  constant_world (ArxivResponse 200 not_found (Ok (feed [sample_entry])))
                 (ScholarResponse 404 (Raise not_found))
                 (GroqCompletion (Some (py "nets, depth"))).



Definition sample_bundle (citation_counts : pydict) : pydict :=
  bundle_of [sample_paper]
    (VStr (py "nets, depth")) (VStr (py "nets, depth"))
    (VList [VStr (py "nets"); VStr (py "depth")])
    (VList []) citation_counts
    (VStr (py "nets, depth")) (VStr (py "nets, depth")).

Definition unavailable_bundle : pydict := sample_bundle unavailable_counts.

Definition uncited_bundle : pydict :=
  sample_bundle (<[py "citations" := VInt 0]> (<[py "references" := VInt 0]> ∅)).

(** ** A backend that fails in one operation *)

(** How the prompt of each operation begins. *)
Definition prompt_head (op : analysis_op) : pystr :=
  nl ++ GroqAI.indent ++
  match op with
  | Summarize => py "Please provide"
  | Explain => py "Explain the"
  | Keywords => py "Extract the"
  | Trends => py "Analyze the"
  | Challenges => py "Based on"
  end.

(** Is the event a completion request of the operation? *)
Definition targets (op : analysis_op) (ev : event) : bool :=
  match ev with
  | GroqRequest _ prompt _ => startswith (prompt_head op) prompt
  | _ => false
  end.

(** The world [w], except that every completion request of [op] raises [e]. *)
Definition fail_op (op : analysis_op) (e : exn) (w : world) : world :=
  World (arxiv_reply_at w) (scholar_reply_at w)
        (fun tr =>
           match last tr with
           | Some ev => if targets op ev then GroqFails e else groq_reply_at w tr
           | None => groq_reply_at w tr
           end)
        (getenv_at w) (str_other w).

(** ** Splitting and trimming, as the specification words them *)

(** The pieces of [s] between the occurrences of the character [c]. *)
Fixpoint pieces_at (c : N) (s : pystr) : list pystr :=
  match s with
  | [] => [[]]
  | a :: s' =>
      if (c =? a)%N then [] :: pieces_at c s'
      else match pieces_at c s' with
           | piece :: rest => (a :: piece) :: rest
           | [] => [[a]]
           end
  end.

(** A string without whitespace at either end. *)
Definition trimmed (s : pystr) : Prop :=
  (forall c, head s = Some c -> isspace c = false)
  /\ (forall c, last s = Some c -> isspace c = false).

(** [t] is [s] without the whitespace around it. *)
Definition trim_of (s t : pystr) : Prop :=
  trimmed t
  /\ exists before after,
       s = before ++ t ++ after
       /\ Forall (fun c => isspace c = true) before
       /\ Forall (fun c => isspace c = true) after.

(** Every space replaced by an underscore. *)
Definition spaces_to_underscores (query : pystr) : pystr :=
  (fun c => if (c =? 32)%N then 95%N else c) <$> query.

(** ** The export as a function *)

(** What [export_results] returns: the document, or [None] when rendering
    raises. *)
Definition exported (str_other : pyval -> pystr) (query : pystr) (search_result : pydict)
    : option pydict :=
  match Markdown.export_body str_other query search_result with
  | Ok document => Some document
  | Raise _ => None
  end.

(** The backend answers the keyword request with the reply of the
    specification's example. *)
Definition keywords_world : world :=
  constant_world (ArxivResponse 200 not_found (Ok (feed [sample_entry])))
                 (ScholarResponse 404 (Raise not_found))
                 (GroqCompletion (Some (py "  ml,  AI ,, robotics"))).

(** The document exported for [unavailable_bundle] and the query
    [deep learning]. *)
Definition text_lines (lines : list string) : pystr :=
  mjoin ((fun line => py line ++ nl) <$> lines).

Definition sample_document : pydict :=
  <[py "content" := VStr (text_lines
      [ "# Research Summary: deep learning"; "";
        "## Papers Found (1)"; "";
        "### 1. Deep nets"; "";
        "**Authors:** Ann, Bob";
        "**Published:** 2020-01-02";
        "**URL:** http://arxiv.org/abs/2001.00001v1"; "";
        "**Abstract:**";
        "We study nets."; "";
        "---"; ""; "";
        "## AI Summary"; "";
        "nets, depth"; "";
        "## Explain Like I'm 15"; "";
        "nets, depth"; "";
        "## Keywords"; "";
        "nets, depth"; "";
        "## Trends & Insights"; "";
        "nets, depth"; "";
        "## Open Challenges"; "";
        "nets, depth"; "";
        "## Related Works"; "" ]%string)]>
  (<[py "filename" := VStr (py "research_summary_deep_learning.md")]> ∅).

(** ** Vocabulary for the paper source *)

(** The text of the first child of [entry] named [name], if there is one. *)
Definition text_at (name : string) (entry : element) : option pystr :=
  find (atom name) entry ≫= text_of.

(** Every author element has a name element. *)
Definition authors_named (entry : element) : Prop :=
  Forall (fun author => find (atom "name") author <> None) (findall (atom "author") entry).

(** The names of the authors of [entry], as [find(...).text] gives them. *)
Definition author_names (entry : element) : list pyval :=
  (fun author => text_val (find (atom "name") author ≫= text_of))
    <$> findall (atom "author") entry.

(** arXiv cannot be reached. *)
Definition unreachable_world : world :=
  constant_world (ArxivUnreachable timeout)
                 (ScholarResponse 404 (Raise not_found))
                 (GroqCompletion (Some (py "nets, depth"))).

(** The paper built from an entry whose four texts are [title], [summary],
    [published] and [url]. *)
Definition paper_dict (entry : element) (title summary published url : pystr) : pydict :=
  <[py "title" := VStr (py_strip title)]>
  (<[py "authors" := VList (author_names entry)]>
  (<[py "abstract" := VStr (py_strip summary)]>
  (<[py "published" := VStr (take 10 published)]>
  (<[py "url" := VStr url]>
  (<[py "arxiv_id" := VStr (default [] (last (pieces_at 47 url)))]> ∅))))).

(** ** Vocabulary for the client cache *)

(** Does the event read the process environment? *)
Definition reads_environment (e : event) : bool :=
  match e with Getenv _ => true | _ => false end.

(** The key is set, but empty. *)
Definition empty_key_world : world :=
  World (fun _ => ArxivResponse 200 not_found (Ok (feed [sample_entry])))
        (fun _ => ScholarResponse 404 (Raise not_found))
        (fun _ => GroqCompletion (Some (py "nets, depth")))
        (fun _ => Some []) (fun _ => py "<object>").

(** The backend answers without content. *)
Definition no_content_world : world :=
  constant_world (ArxivResponse 200 not_found (Ok (feed [sample_entry])))
                 (ScholarResponse 404 (Raise not_found))
                 (GroqCompletion None).

(** ** Vocabulary for the calls of a search *)





(** ** Vocabulary for the export and the chart *)

(** The seven fields of the bundle the export reads. *)
Definition exported_fields : list pystr :=
  [ py "papers"; py "ai_summary"; py "explain_like_15"; py "keywords";
    py "trends"; py "open_challenges"; py "related_works" ].






(** ** Vocabulary for the shape of a bundle *)

(** A paper the export can render: the five fields it reads are there, and
    the authors are a list of strings. *)
Definition exportable_paper (paper : pydict) : Prop :=
  is_Some (paper !! py "title") /\ is_Some (paper !! py "published")
  /\ is_Some (paper !! py "url") /\ is_Some (paper !! py "abstract")
  /\ exists names, paper !! py "authors" = Some (VList (VStr <$> names)).

(** An entry with an author whose name element is empty. *)
Definition entry_with_empty_name : element :=
  Element (atom "entry") None
    [ leaf "id" "http://arxiv.org/abs/2001.00003v1";
      leaf "published" "2020-03-04T00:00:00Z";
      leaf "title" "Anonymous nets";
      leaf "summary" "Nets without names.";
      Element (atom "author") None [Element (atom "name") None []] ].

Definition empty_name_world : world :=
  constant_world (ArxivResponse 200 not_found (Ok (feed [entry_with_empty_name])))
                 (ScholarResponse 404 (Raise not_found))
                 (GroqCompletion (Some (py "nets, depth"))).

Definition empty_name_bundle : pydict :=
  bundle_of
    [ <[py "title" := VStr (py "Anonymous nets")]>
      (<[py "authors" := VList [VNone]]>
      (<[py "abstract" := VStr (py "Nets without names.")]>
      (<[py "published" := VStr (py "2020-03-04")]>
      (<[py "url" := VStr (py "http://arxiv.org/abs/2001.00003v1")]>
      (<[py "arxiv_id" := VStr (py "2001.00003v1")]> ∅))))) ]
    (VStr (py "nets, depth")) (VStr (py "nets, depth"))
    (VList [VStr (py "nets"); VStr (py "depth")])
    (VList []) unavailable_counts
    (VStr (py "nets, depth")) (VStr (py "nets, depth")).

(** * Properties *)

(** ** Running computations *)

Lemma bind_ok {A B} (c : M A) (k : A -> M B) w st a st' :
  c w st = (Ok a, st') -> (c ≫= k) w st = k a w st'.
Proof. intros H. unfold mbind, M_bind. by rewrite H. Qed.

Lemma bind_raise {A B} (c : M A) (k : A -> M B) w st e st' :
  c w st = (Raise e, st') -> (c ≫= k) w st = (Raise e, st').
Proof. intros H. unfold mbind, M_bind. by rewrite H. Qed.

Lemma record_record st new1 new2 : record (record st new1) new2 = record st (new1 ++ new2).
Proof. unfold record. simpl. by rewrite <- app_assoc. Qed.

Lemma record_nil st : record st [] = st.
Proof. destruct st. unfold record. simpl. by rewrite app_nil_r. Qed.

(** ** Lists of results *)

Lemma res_mapM_Forall2 {A B} (f : A -> res B) l bs :
  res_mapM f l = Ok bs <-> Forall2 (fun a b => f a = Ok b) l bs.
Proof.
  revert bs. induction l as [|a l IH]; intros bs; simpl.
  - split; [intros [= <-]; constructor | by inversion 1].
  - destruct (f a) as [b|e] eqn:Hfa; simpl.
    + destruct (res_mapM f l) as [bs'|e] eqn:Hl; simpl.
      * split.
        -- intros [= <-]. constructor; [done|]. by apply IH.
        -- inversion 1 as [|? y ? ? Hy Hrest]; subst.
           apply IH in Hrest. congruence.
      * split; [done|]. inversion 1 as [|? y ? ? Hy Hrest]; subst.
        by apply IH in Hrest.
    + split; [done|]. inversion 1; subst. congruence.
Qed.

Lemma res_mapM_Exists_raise {A B} (f : A -> res B) l :
  Exists (fun a => exists e, f a = Raise e) l -> exists e, res_mapM f l = Raise e.
Proof.
  induction 1 as [a l [e He]|a l _ [e IH]]; simpl.
  - rewrite He. by exists e.
  - destruct (f a); simpl; [|by eexists]. rewrite IH. by exists e.
Qed.

(** ** The paper source *)

Ltac step_res :=
  match goal with
  | H : context [res_bind ?r _] |- _ =>
      let x := fresh "x" in let E := fresh "E" in
      destruct r as [x|?] eqn:E; simpl in H; [|discriminate H]
  end.

(** Every paper built from an entry carries a string abstract and a string
    identifier. *)
Lemma paper_of_entry_fields entry p :
  ArxivAPI.paper_of_entry entry = Ok p ->
  exists abstract arxiv_id,
    p !! py "abstract" = Some (VStr abstract) /\ p !! py "arxiv_id" = Some (VStr arxiv_id).
Proof.
  unfold ArxivAPI.paper_of_entry. intros H.
  repeat step_res. injection H as <-.
  eexists _, _. split; vm_compute; reflexivity.
Qed.

Lemma lacking_entry_raises entry :
  lacks_required_field entry -> exists e, ArxivAPI.paper_of_entry entry = Raise e.
Proof.
  unfold lacks_required_field, ArxivAPI.paper_of_entry.
  intros H.
  repeat match goal with
         | |- context [res_bind ?r _] =>
             destruct r eqn:?; simpl; [|by eexists]
         end.
  exfalso.
  repeat match goal with
         | E : dot_text (find ?t entry) = Ok _ |- _ =>
             destruct (find t entry) eqn:?; [clear E|discriminate E]
         end.
  destruct H as [?|[?|[?|?]]]; congruence.
Qed.

(** The whole of [ArxivAPI.search_papers] in one equation: one request, and
    either the papers of the reply or an error message and no paper. *)
Lemma arxiv_search_run w st query max_results :
  ArxivAPI.search_papers query max_results w st =
  match arxiv_outcome (arxiv_reply_at w (trace st ++ [arxiv_request query max_results])) with
  | Ok papers => (Ok papers, record st [arxiv_request query max_results])
  | Raise e =>
      (Ok [], record st [arxiv_request query max_results;
                         Streamlit (StError (py "Error fetching from arXiv: " ++ exn_msg e))])
  end.
Proof.
  unfold ArxivAPI.search_papers, try_except, ask, arxiv_outcome, record, arxiv_request.
  unfold mbind, M_bind, lift, st_error, emit, mret, M_ret. simpl.
  destruct (arxiv_reply_at w _) as [e|status_code http_error document]; simpl.
  - by rewrite <- app_assoc.
  - destruct (ArxivAPI.raise_for_status _ _); simpl; [|by rewrite <- app_assoc].
    destruct document as [root|e]; simpl; [|by rewrite <- app_assoc].
    destruct (res_mapM _ _); simpl; [done|by rewrite <- app_assoc].
Qed.

Example sample_paper_of_entry : ArxivAPI.paper_of_entry sample_entry = Ok sample_paper.
Proof. vm_compute. reflexivity. Qed.

(** C2, as stated, fails: a feed whose first entry is complete and whose
    second entry has no title gives no paper at all, although the first
    entry alone gives [sample_paper]. *)
Lemma missing_field_discards_good_entries :
  ArxivAPI.paper_of_entry sample_entry = Ok sample_paper
  /\ lacks_required_field entry_without_title
  /\ ArxivAPI.search_papers (py "deep learning") 5 good_then_bad_world fresh_process
     = (Ok [], record fresh_process
                 [ arxiv_request (py "deep learning") 5;
                   Streamlit (StError (py "Error fetching from arXiv: 'NoneType' object has no attribute 'text'")) ]).
Proof.
  split; [vm_compute; reflexivity|].
  split; [left; vm_compute; reflexivity|].
  vm_compute. reflexivity.
Qed.

(** C2, amended: when an entry of the feed lacks a required element the call
    reports the error and returns the empty list, the complete entries
    included; when every entry yields a paper the call returns them all, one
    per entry, in the order of the feed. *)
Theorem missing_field_empties_batch w st query max_results status_code http_error root :
  arxiv_reply_at w (trace st ++ [arxiv_request query max_results])
    = ArxivResponse status_code http_error (Ok root) ->
  ArxivAPI.raise_for_status status_code http_error = Ok tt ->
  (Exists lacks_required_field (findall (atom "entry") root) ->
   exists e,
     ArxivAPI.search_papers query max_results w st
     = (Ok [], record st
                 [ arxiv_request query max_results;
                   Streamlit (StError (py "Error fetching from arXiv: " ++ exn_msg e)) ]))
  /\ (forall papers,
        Forall2 (fun entry paper => ArxivAPI.paper_of_entry entry = Ok paper)
                (findall (atom "entry") root) papers ->
        ArxivAPI.search_papers query max_results w st
        = (Ok papers, record st [arxiv_request query max_results])).
Proof.
  intros Hreply Hstatus. rewrite arxiv_search_run, Hreply. simpl. rewrite Hstatus. simpl.
  split.
  - intros Hlack.
    destruct (res_mapM_Exists_raise ArxivAPI.paper_of_entry (findall (atom "entry") root))
      as [e He].
    { eapply Exists_impl; [exact Hlack|]. intros entry. apply lacking_entry_raises. }
    exists e. by rewrite He.
  - intros papers Hall. apply res_mapM_Forall2 in Hall. by rewrite Hall.
Qed.

Lemma missing_field_empties_batch_witness :
  exists e,
    ArxivAPI.search_papers (py "deep learning") 5 good_then_bad_world fresh_process
    = (Ok [], record fresh_process
                [ arxiv_request (py "deep learning") 5;
                  Streamlit (StError (py "Error fetching from arXiv: " ++ exn_msg e)) ]).
Proof.
  refine (proj1 (missing_field_empties_batch good_then_bad_world fresh_process (py "deep learning") 5
                   200 not_found (feed [sample_entry; entry_without_title])
                   eq_refl eq_refl) _).
  apply Exists_cons_tl, Exists_cons_hd. left. vm_compute. reflexivity.
Defined.

(** ** The two hard stops *)

Lemma truthy_nonempty c (s : pystr) : truthy (VStr (c :: s)) = true.
Proof. done. Qed.

(** C4: with an empty query, or when the paper search gives no paper, the
    result is [None]; the events added to the trace contain no call of the
    enrichment source and none of the analysis engine, and for an empty query
    the only event is the message that a query is required. *)
Theorem hard_stops_make_no_calls w st query :
  query = [] \/ (ArxivAPI.search_papers query 5 w st).1 = Ok [] ->
  exists new,
    ResearchAPI.search_papers query w st = (Ok None, record st new)
    /\ Forall (fun e => enrichment_call e = false /\ analysis_call e = false) new
    /\ match query with
       | [] => new = [Streamlit (StError (py "Query is required"))]
       | _ => paper_source_call <$> head new = Some true
              /\ last new = Some (Streamlit (StError (py "No papers found for the given query")))
       end.
Proof.
  destruct query as [|c query].
  - intros _. exists [Streamlit (StError (py "Query is required"))].
    split; [reflexivity|]. split; [|reflexivity].
    repeat constructor.
  - intros [?|Hnone]; [done|].
    unfold ResearchAPI.search_papers. rewrite truthy_nonempty. simpl.
    unfold try_except, mbind, M_bind.
    rewrite arxiv_search_run in Hnone |- *.
    destruct (arxiv_outcome _) as [papers|e]; simpl in *.
    + injection Hnone as ->. simpl.
      eexists. split; [unfold st_error, emit, record; simpl; by rewrite <- app_assoc|].
      split; [repeat constructor|]. done.
    + eexists. split; [unfold st_error, emit, record; simpl; by rewrite <- !app_assoc|].
      split; [repeat constructor|]. done.
Qed.

Lemma hard_stops_make_no_calls_witness :
  exists new,
    ResearchAPI.search_papers (py "deep learning") empty_feed_world fresh_process
    = (Ok None, record fresh_process new)
    /\ Forall (fun e => enrichment_call e = false /\ analysis_call e = false) new
    /\ paper_source_call <$> head new = Some true
    /\ last new = Some (Streamlit (StError (py "No papers found for the given query"))).
Proof.
  apply (hard_stops_make_no_calls empty_feed_world fresh_process (py "deep learning")).
  right. vm_compute. reflexivity.
Defined.

(** ** The enrichment source *)

Lemma get_paper_details_run w st arxiv_id :
  let lookup := scholar_request (py_str (str_other w) arxiv_id) in
  SemanticScholarAPI.get_paper_details arxiv_id w st
  = (Ok (scholar_outcome (scholar_reply_at w (trace st ++ [lookup]))), record st [lookup]).
Proof.
  unfold SemanticScholarAPI.get_paper_details, try_except, ask, str, scholar_outcome,
    record, scholar_request.
  unfold mbind, M_bind, lift, mret, M_ret. simpl.
  destruct (scholar_reply_at w _) as [e|status_code json]; simpl; [done|].
  destruct (status_code =? 200); simpl; [|done].
  by destruct json.
Qed.

Lemma get_related_works_run w st arxiv_id :
  let lookup := scholar_request (py_str (str_other w) arxiv_id) in
  SemanticScholarAPI.get_related_works arxiv_id w st
  = (Ok (related_of (scholar_outcome (scholar_reply_at w (trace st ++ [lookup])))),
     record st [lookup]).
Proof.
  unfold SemanticScholarAPI.get_related_works, try_except. unfold mbind, M_bind.
  rewrite get_paper_details_run. cbv zeta. unfold related_of.
  generalize (scholar_outcome (scholar_reply_at w
    (trace st ++ [scholar_request (py_str (str_other w) arxiv_id)]))).
  intros paper_data.
  destruct (truthy (VDict paper_data) && _); [|done].
  unfold lift. by destruct (py_slice_to _ _).
Qed.

Lemma scholar_outcome_failed r : lookup_failed r = true -> scholar_outcome r = ∅.
Proof.
  destruct r as [e|status_code json]; simpl; [done|].
  destruct (status_code =? 200); simpl; [|done]. by destruct json.
Qed.

(** C3: when the lookup fails, [get_paper_details] returns the empty record,
    from which the citation block marked unavailable is built, and
    [get_related_works] returns the empty list; both return normally, having
    sent the one request. *)
Theorem failed_lookup_degrades w st arxiv_id :
  let lookup := scholar_request (py_str (str_other w) arxiv_id) in
  lookup_failed (scholar_reply_at w (trace st ++ [lookup])) = true ->
  SemanticScholarAPI.get_paper_details arxiv_id w st = (Ok ∅, record st [lookup])
  /\ ResearchAPI.citation_counts_of ∅ = unavailable_counts
  /\ unavailable_counts !! py "status" = Some (VStr (py "Semantic Scholar unavailable"))
  /\ SemanticScholarAPI.get_related_works arxiv_id w st = (Ok (VList []), record st [lookup]).
Proof.
  intros lookup Hfail.
  rewrite get_paper_details_run, get_related_works_run.
  fold lookup. rewrite (scholar_outcome_failed _ Hfail).
  repeat split; vm_compute; reflexivity.
Qed.

Lemma failed_lookup_degrades_witness :
  let lookup := scholar_request (py "2001.00001v1") in
  SemanticScholarAPI.get_paper_details (VStr (py "2001.00001v1")) good_then_bad_world fresh_process
    = (Ok ∅, record fresh_process [lookup])
  /\ ResearchAPI.citation_counts_of ∅ = unavailable_counts
  /\ unavailable_counts !! py "status" = Some (VStr (py "Semantic Scholar unavailable"))
  /\ SemanticScholarAPI.get_related_works (VStr (py "2001.00001v1")) good_then_bad_world fresh_process
    = (Ok (VList []), record fresh_process [lookup]).
Proof.
  apply (failed_lookup_degrades good_then_bad_world fresh_process (VStr (py "2001.00001v1"))).
  reflexivity.
Defined.

(** ** The analysis engine *)

Lemma get_groq_client_run w st :
  get_groq_client w st = (Ok (client_available w st), after_client w st).
Proof.
  unfold get_groq_client, client_available, after_client, read_cache, ask, write_cache,
    st_error, emit, record, key_missing.
  unfold mbind, M_bind, mret, M_ret. destruct st as [tr cache]. simpl.
  destruct cache as [[|]|]; simpl; [done..|].
  by destruct (truthy (text_val (getenv_at w _))).
Qed.

Lemma join_items_strs i (l : list pystr) : join_items i (VStr <$> l) = Ok l.
Proof.
  revert i. induction l as [|s l IH]; intros i; simpl; [done|]. by rewrite IH.
Qed.

(** Papers that carry string abstracts have a combined text. *)
Lemma combined_text_ok papers :
  Forall (fun paper : pydict => exists abstract, paper !! py "abstract" = Some (VStr abstract)) papers ->
  exists text, GroqAI.combined_text papers = Ok text.
Proof.
  intros Hall. unfold GroqAI.combined_text.
  assert (exists abstracts,
             res_mapM (fun paper : pydict => dict_getitem paper (py "abstract")) papers
             = Ok (VStr <$> abstracts)) as [abstracts ->].
  { induction Hall as [|paper papers [abstract Ha] _ [abstracts IH]]; simpl.
    - by exists [].
    - unfold dict_getitem at 1. rewrite Ha. simpl. rewrite IH. simpl.
      by exists (abstract :: abstracts). }
  simpl. unfold py_join. simpl. rewrite join_items_strs. simpl. by eexists.
Qed.

(** Each operation in one equation. *)
Lemma run_op_run op papers text w st :
  GroqAI.combined_text papers = Ok text ->
  run_op op papers w st = (Ok (analysis_value op text w st), after_analysis op text w st).
Proof.
  intros Htext. unfold analysis_value, after_analysis, request_of, groq_request.
  destruct op; simpl;
    unfold GroqAI.summarize_papers, GroqAI.explain_like_15, GroqAI.extract_keywords,
      GroqAI.analyze_trends, GroqAI.identify_challenges;
    unfold mbind at 1; unfold M_bind at 1; rewrite get_groq_client_run;
    (destruct (client_available w st); simpl; [|done]);
    unfold mbind at 1; unfold M_bind at 1; unfold lift at 1; rewrite Htext;
    unfold try_except, GroqAI.chat_completions_create, ask, record;
    unfold mbind, M_bind, mret, M_ret, lift; simpl;
    (destruct (groq_reply_at w _) as [e|[content|]]; simpl; done).
Qed.

(** ** The aggregator *)

Lemma arxiv_outcome_fields r papers :
  arxiv_outcome r = Ok papers ->
  Forall (fun paper : pydict =>
            exists abstract arxiv_id,
              paper !! py "abstract" = Some (VStr abstract)
              /\ paper !! py "arxiv_id" = Some (VStr arxiv_id)) papers.
Proof.
  destruct r as [e|status_code http_error document]; simpl; [done|].
  destruct (ArxivAPI.raise_for_status _ _); simpl; [|done].
  destruct document as [root|e]; simpl; [|done].
  intros Hall. apply res_mapM_Forall2 in Hall.
  induction Hall as [|entry paper entries papers Hp _ IH]; constructor; [|done].
  by apply paper_of_entry_fields in Hp.
Qed.

(** [ResearchAPI.search_papers] in one equation; in particular it always
    returns, and its [except] clause is never reached. *)
Lemma search_papers_run w st query :
  ResearchAPI.search_papers query w st
  = (Ok (search_outcome w st query).1, (search_outcome w st query).2).
Proof.
  destruct query as [|c query]; [reflexivity|].
  unfold ResearchAPI.search_papers, search_outcome. rewrite truthy_nonempty.
  cbv beta iota zeta. unfold negb at 1. cbv iota.
  unfold try_except. unfold mbind at 1. unfold M_bind at 1.
  rewrite arxiv_search_run. cbn [record trace].
  destruct (arxiv_outcome _) as [papers|e] eqn:Hout.
  - destruct papers as [|paper papers].
    + simpl. unfold st_error, emit, record, no_papers_found. simpl.
      by rewrite <- !app_assoc.
    + pose proof (arxiv_outcome_fields _ _ Hout) as Hfields.
      destruct (combined_text_ok (paper :: papers)) as [text Htext].
      { eapply Forall_impl; [exact Hfields|]. intros p (a & i & Ha & _). by exists a. }
      apply Forall_cons_1 in Hfields as [(abstract & arxiv_id & _ & Hid) _].
      assert (ResearchAPI.first_arxiv_id (paper :: papers) = Ok (VStr arxiv_id)) as Hfirst.
      { unfold ResearchAPI.first_arxiv_id, dict_getitem. simpl. by rewrite Hid. }
      change (truthy (VList (VDict <$> paper :: papers))) with true.
      cbv iota beta. unfold negb. cbv iota.
      unfold pipeline, first_id, abstracts_text. rewrite Hfirst, Htext.
      unfold mbind at 1. unfold M_bind at 1.
      unfold mbind at 1. unfold M_bind at 1. unfold lift at 1.
      unfold mbind at 1. unfold M_bind at 1. rewrite get_paper_details_run.
      unfold mbind at 1. unfold M_bind at 1. rewrite get_related_works_run.
      cbn [py_str]. unfold mret at 1. unfold M_ret at 1.
      change GroqAI.summarize_papers with (run_op Summarize).
      change GroqAI.explain_like_15 with (run_op Explain).
      change GroqAI.extract_keywords with (run_op Keywords).
      change GroqAI.analyze_trends with (run_op Trends).
      change GroqAI.identify_challenges with (run_op Challenges).
      repeat (unfold mbind at 1; unfold M_bind at 1; rewrite (run_op_run _ _ text) by done).
      reflexivity.
  - simpl. unfold st_error, emit, record, no_papers_found. simpl.
    by rewrite <- !app_assoc.
Qed.

(** C10: a result that is not [None] has exactly the eight keys, and its
    [papers] is a non-empty list. *)
Theorem bundle_has_eight_fields w st query bundle st' :
  ResearchAPI.search_papers query w st = (Ok (Some bundle), st') ->
  dom bundle = {[ py "papers"; py "ai_summary"; py "explain_like_15"; py "keywords";
                  py "related_works"; py "citation_counts"; py "trends";
                  py "open_challenges" ]}
  /\ exists paper papers, bundle !! py "papers" = Some (VList (VDict <$> paper :: papers)).
Proof.
  rewrite search_papers_run. unfold search_outcome.
  destruct query as [|c query]; [done|].
  destruct (arxiv_outcome _) as [[|paper papers]|e]; [done| |done].
  cbn -[py]. intros [= <- _]. split.
  - unfold bundle_of. rewrite !dom_insert_L, dom_empty_L. set_solver.
  - by exists paper, papers.
Qed.

Lemma bundle_has_eight_fields_witness :
  dom unavailable_bundle
  = {[ py "papers"; py "ai_summary"; py "explain_like_15"; py "keywords";
       py "related_works"; py "citation_counts"; py "trends"; py "open_challenges" ]}
  /\ exists paper papers,
       unavailable_bundle !! py "papers" = Some (VList (VDict <$> paper :: papers)).
Proof.
  apply (bundle_has_eight_fields unknown_paper_world fresh_process (py "deep learning")
           unavailable_bundle
           (ResearchAPI.search_papers (py "deep learning") unknown_paper_world fresh_process).2).
  vm_compute. reflexivity.
Defined.






(** ** The citation block *)






(** ** Isolation of the analysis operations *)









(** The failure the specification gives as its example: the summary times
    out, the four other analyses come through. *)
Example summarize_timeout :
  (ResearchAPI.search_papers (py "deep learning")
     (fail_op Summarize timeout unknown_paper_world) fresh_process).1
  = Ok (Some (<[py "ai_summary" := VStr (py "Error generating summary: Read timed out.")]>
                unavailable_bundle)).
Proof. vm_compute. reflexivity. Qed.

(** ** Splitting, trimming, replacing *)

Lemma pieces_at_nonempty c s : pieces_at c s <> [].
Proof.
  destruct s as [|a s]; simpl; [done|].
  destruct (c =? a)%N; [done|]. by destruct (pieces_at c s).
Qed.

Lemma split_go_single c cur s :
  split_go [c] O cur s
  = match pieces_at c s with
    | piece :: rest => (cur ++ piece) :: rest
    | [] => [cur]
    end.
Proof.
  revert cur. induction s as [|a s IH]; intros cur; simpl.
  - by rewrite app_nil_r.
  - rewrite andb_true_r. pose proof (pieces_at_nonempty c s) as Hne.
    destruct (c =? a)%N.
    + rewrite app_nil_r. f_equal. rewrite IH. by destruct (pieces_at c s).
    + rewrite IH. destruct (pieces_at c s); [done|]. by rewrite <- app_assoc.
Qed.

Lemma py_split_single c s : py_split [c] s = pieces_at c s.
Proof.
  unfold py_split. rewrite split_go_single.
  pose proof (pieces_at_nonempty c s). by destruct (pieces_at c s).
Qed.

(** Joining the pieces with the separator gives the string back. *)
Lemma join_pieces_at c s : join_strs [c] (pieces_at c s) = s.
Proof.
  induction s as [|a s IH]; simpl; [done|].
  destruct (N.eqb_spec c a) as [->|Hne].
  - pose proof (pieces_at_nonempty a s). destruct (pieces_at a s) as [|p ps]; [done|].
    simpl in *. by rewrite IH.
  - pose proof (pieces_at_nonempty c s). destruct (pieces_at c s) as [|p ps]; [done|].
    destruct ps; simpl in *; by rewrite <- IH.
Qed.

(** No piece contains the separator. *)
Lemma pieces_at_free c s : Forall (fun piece => c ∉ piece) (pieces_at c s).
Proof.
  induction s as [|a s IH]; simpl.
  - repeat constructor. by intros ?%elem_of_nil.
  - destruct (N.eqb_spec c a) as [->|Hne].
    + constructor; [by intros ?%elem_of_nil|done].
    + destruct (pieces_at c s) as [|p ps].
      * repeat constructor. intros [->|?%elem_of_nil]%elem_of_cons; done.
      * apply Forall_cons in IH as [Hp Hps]. constructor; [|done].
        intros [->|?]%elem_of_cons; done.
Qed.

Lemma py_lstrip_spec s :
  exists before,
    s = before ++ py_lstrip s
    /\ Forall (fun c => isspace c = true) before
    /\ forall c, head (py_lstrip s) = Some c -> isspace c = false.
Proof.
  induction s as [|a s (before & Hs & Hws & Hhead)]; simpl.
  - exists []. by repeat split.
  - destruct (isspace a) eqn:Ha.
    + exists (a :: before). simpl. split; [by f_equal|]. split; [by constructor|done].
    + exists []. split; [done|]. split; [constructor|]. simpl. by intros c [= <-].
Qed.

Lemma py_rstrip_spec s :
  exists after,
    s = py_rstrip s ++ after
    /\ Forall (fun c => isspace c = true) after
    /\ forall c, last (py_rstrip s) = Some c -> isspace c = false.
Proof.
  unfold py_rstrip. destruct (py_lstrip_spec (reverse s)) as (before & Hs & Hws & Hhead).
  exists (reverse before). split; [|split].
  - rewrite <- reverse_app, <- Hs. by rewrite reverse_involutive.
  - by apply Forall_reverse.
  - intros c. rewrite last_reverse. apply Hhead.
Qed.

(** [py_strip] removes the whitespace around a string, and nothing else. *)
Lemma py_strip_spec s : trim_of s (py_strip s).
Proof.
  unfold trim_of, trimmed, py_strip.
  destruct (py_lstrip_spec s) as (before & Hs & Hbefore & Hhead).
  destruct (py_rstrip_spec (py_lstrip s)) as (after & Ht & Hafter & Hlast).
  split; [split; [|done]|].
  - intros c Hc. apply Hhead. rewrite Ht.
    destruct (py_rstrip (py_lstrip s)); [done|]. exact Hc.
  - exists before, after. by rewrite <- Ht.
Qed.

Lemma stripped_nonempty_filter keywords :
  GroqAI.stripped_nonempty keywords = filter (fun kw => kw <> []) (py_strip <$> keywords).
Proof.
  unfold GroqAI.stripped_nonempty.
  induction keywords as [|kw keywords IH]; [done|].
  rewrite fmap_cons, !filter_cons, <- IH. unfold truthy.
  destruct (decide (py_strip kw = [])) as [Heq|Hne].
  - rewrite (bool_decide_eq_true_2 _ Heq). simpl.
    destruct (decide (false = true)); [done|]. by destruct (decide (py_strip kw <> [])).
  - rewrite (bool_decide_eq_false_2 _ Hne). simpl.
    destruct (decide (true = true)); [|done]. by destruct (decide (py_strip kw <> [])).
Qed.

Lemma py_replace_single a b s :
  py_replace [a] [b] s = (fun c => if (c =? a)%N then b else c) <$> s.
Proof.
  unfold py_replace. induction s as [|c s IH]; simpl; [done|].
  rewrite andb_true_r, N.eqb_sym. destruct (c =? a)%N; simpl; by rewrite IH.
Qed.

(** ** Keywords *)

(** C5: when the backend answers the keyword request with the text
    [content], [extract_keywords] returns the pieces of [content] between
    its commas, each with the whitespace around it removed, without the
    pieces that are then empty, in the order of the text; for the reply of
    the example these are ml, AI and robotics. *)
Theorem extract_keywords_parses_reply papers text w st content :
  GroqAI.combined_text papers = Ok text ->
  client_available w st = true ->
  groq_reply_at w (trace (after_client w st) ++ [request_of Keywords text])
    = GroqCompletion (Some content) ->
  GroqAI.extract_keywords papers w st
  = (Ok (VList (VStr <$> filter (fun kw => kw <> []) (py_strip <$> pieces_at 44 content))),
     record (after_client w st) [request_of Keywords text])
  /\ join_strs (py ",") (pieces_at 44 content) = content
  /\ Forall (fun piece => 44%N ∉ piece) (pieces_at 44 content)
  /\ Forall (fun piece => trim_of piece (py_strip piece)) (pieces_at 44 content)
  /\ filter (fun kw => kw <> []) (py_strip <$> pieces_at 44 (py "  ml,  AI ,, robotics"))
     = [py "ml"; py "AI"; py "robotics"].
Proof.
  intros Htext Hclient Hreply.
  change GroqAI.extract_keywords with (run_op Keywords).
  rewrite (run_op_run Keywords papers text w st Htext).
  unfold analysis_value, after_analysis. rewrite Hclient, Hreply.
  cbn [field_of_reply keywords_of_content].
  rewrite stripped_nonempty_filter. change (py ",") with [44%N].
  rewrite py_split_single.
  split; [done|]. split; [apply join_pieces_at|]. split; [apply pieces_at_free|].
  split; [|vm_compute; reflexivity].
  apply Forall_forall. intros piece _. apply py_strip_spec.
Qed.

Lemma extract_keywords_parses_reply_witness :
  (GroqAI.extract_keywords [sample_paper] keywords_world fresh_process).1
  = Ok (VList [VStr (py "ml"); VStr (py "AI"); VStr (py "robotics")]).
Proof.
  destruct (extract_keywords_parses_reply [sample_paper] (py "We study nets.")
              keywords_world fresh_process (py "  ml,  AI ,, robotics")) as (Hrun & _).
  - vm_compute. reflexivity.
  - vm_compute. reflexivity.
  - vm_compute. reflexivity.
  - rewrite Hrun. vm_compute. reflexivity.
Defined.

(** ** The export *)

(** [export_results] in one equation: its result is a function of the
    query and the bundle (and of how the interpreter prints objects); the
    only thing it does to the outside is the error message when rendering
    raises. *)
Lemma export_results_run query search_result w st :
  ResearchAPI.export_results query search_result w st
  = (Ok (exported (str_other w) query search_result),
     match Markdown.export_body (str_other w) query search_result with
     | Ok _ => st
     | Raise e => record st [Streamlit (StError (py "Error generating export: " ++ exn_msg e))]
     end).
Proof.
  unfold ResearchAPI.export_results, exported, try_except, lift, st_error, emit, record.
  unfold mbind, M_bind, mret, M_ret.
  by destruct (Markdown.export_body _ _ _).
Qed.

(** C8: the result of [export_results] is a function of the query and the
    bundle; a second call, made after the first, returns the same content
    and file name; neither call sends a request to an external source. *)
Theorem export_results_deterministic query search_result w st :
  let first := ResearchAPI.export_results query search_result w st in
  let second := ResearchAPI.export_results query search_result w first.2 in
  first.1 = Ok (exported (str_other w) query search_result)
  /\ second.1 = first.1
  /\ exists new,
       second.2 = record st new
       /\ Forall (fun e => external_call e = false) new
       /\ groq_client_cache second.2 = groq_client_cache st.
Proof.
  cbv zeta. rewrite !export_results_run. cbn [fst snd].
  split; [done|]. split; [done|].
  destruct (Markdown.export_body _ _ _) as [document|e].
  - exists []. by rewrite record_nil.
  - eexists. rewrite record_record. split; [done|]. split; [|done].
    by repeat constructor.
Qed.

(** C9: the file name of an export is [research_summary_], the query with
    every space replaced by an underscore, and [.md]; for the query
    [deep learning] it is [research_summary_deep_learning.md]. *)
Theorem export_filename query search_result w st document :
  (ResearchAPI.export_results query search_result w st).1 = Ok (Some document) ->
  document !! py "filename"
  = Some (VStr (py "research_summary_" ++ spaces_to_underscores query ++ py ".md"))
  /\ py "research_summary_" ++ spaces_to_underscores (py "deep learning") ++ py ".md"
     = py "research_summary_deep_learning.md".
Proof.
  rewrite export_results_run. cbn [fst]. unfold exported.
  destruct (Markdown.export_body _ _ _) as [document'|e] eqn:Hbody; [|done].
  intros [= ->]. split; [|vm_compute; reflexivity].
  unfold Markdown.export_body in Hbody.
  repeat step_res. injection Hbody as <-.
  rewrite lookup_insert_ne by done. rewrite lookup_insert_eq.
  change (py " ") with [32%N]. change (py "_") with [95%N].
  by rewrite py_replace_single.
Qed.

Example sample_export :
  (ResearchAPI.export_results (py "deep learning") unavailable_bundle
     unknown_paper_world fresh_process).1 = Ok (Some sample_document).
Proof. vm_compute. reflexivity. Qed.

Lemma export_filename_witness :
  sample_document !! py "filename"
  = Some (VStr (py "research_summary_" ++ spaces_to_underscores (py "deep learning") ++ py ".md"))
  /\ py "research_summary_" ++ spaces_to_underscores (py "deep learning") ++ py ".md"
     = py "research_summary_deep_learning.md".
Proof.
  apply (export_filename (py "deep learning") unavailable_bundle unknown_paper_world
           fresh_process sample_document).
  vm_compute. reflexivity.
Defined.

(** * Further properties of the code *)

(** ** [ArxivAPI.search_papers] *)

(** X1: Whatever goes wrong with the request (no connection, an error status,
    a body that does not parse), the call returns the empty list and reports
    the exception in one message. *)
Theorem arxiv_failure_reported w st query max_results e :
  let request := arxiv_request query max_results in
  (arxiv_reply_at w (trace st ++ [request]) = ArxivUnreachable e
   \/ (exists status_code document,
         arxiv_reply_at w (trace st ++ [request]) = ArxivResponse status_code e document
         /\ 400 <= status_code < 600)
   \/ (exists status_code http_error,
         arxiv_reply_at w (trace st ++ [request])
         = ArxivResponse status_code http_error (Raise e)
         /\ ~ 400 <= status_code < 600)) ->
  ArxivAPI.search_papers query max_results w st
  = (Ok [], record st [request;
                       Streamlit (StError (py "Error fetching from arXiv: " ++ exn_msg e))]).
Proof.
  intros request Hreply. rewrite arxiv_search_run. fold request.
  destruct Hreply as [->|[(status_code & document & -> & Hstatus)
                         |(status_code & http_error & -> & Hstatus)]]; simpl.
  - done.
  - unfold ArxivAPI.raise_for_status.
    destruct (Z.leb_spec 400 status_code); [|lia].
    destruct (Z.ltb_spec status_code 600); [|lia]. done.
  - unfold ArxivAPI.raise_for_status.
    destruct (Z.leb_spec 400 status_code); [|done].
    destruct (Z.ltb_spec status_code 600); [lia|done].
Qed.

Lemma arxiv_failure_reported_witness :
  ArxivAPI.search_papers (py "deep learning") 5 unreachable_world fresh_process
  = (Ok [], record fresh_process
              [arxiv_request (py "deep learning") 5;
               Streamlit (StError (py "Error fetching from arXiv: Read timed out."))]).
Proof.
  apply (arxiv_failure_reported unreachable_world fresh_process (py "deep learning") 5 timeout).
  left. reflexivity.
Defined.

Lemma dot_text_ok x t :
  dot_text x = Ok t <-> exists el, x = Some el /\ t = text_of el.
Proof.
  destruct x as [el|]; simpl.
  - split; [intros [= <-]; by exists el|]. by intros (el' & [= <-] & ->).
  - split; [done|]. by intros (el & ? & _).
Qed.

Lemma text_at_find name entry s :
  text_at name entry = Some s
  <-> exists el, find (atom name) entry = Some el /\ text_of el = Some s.
Proof.
  unfold text_at. destruct (find (atom name) entry) as [el|]; simpl.
  - split; [by exists el|]. by intros (el' & [= <-] & ?).
  - split; [done|]. by intros (el & ? & _).
Qed.

Lemma last_item_split sep s : sep <> [] -> exists segment, last_item (py_split sep s) = Ok segment.
Proof.
  intros Hsep. unfold last_item, py_split.
  assert (forall skip cur, split_go sep skip cur s <> []) as Hne.
  { induction s as [|a s IH]; intros skip cur; simpl; [done|].
    destruct skip; [|apply IH]. destruct (startswith sep (a :: s)); [done|apply IH]. }
  specialize (Hne O []). destruct (split_go sep O [] s) as [|p ps] using rev_ind; [done|].
  rewrite last_snoc. by eexists.
Qed.

Lemma author_names_ok entry :
  authors_named entry ->
  res_mapM (fun author => dot_text (find (atom "name") author)) (findall (atom "author") entry)
  = Ok ((fun author => find (atom "name") author ≫= text_of) <$> findall (atom "author") entry).
Proof.
  unfold authors_named. induction 1 as [|author authors Hname _ IH]; simpl; [done|].
  destruct (find (atom "name") author) as [el|]; [|done]. simpl. by rewrite IH.
Qed.

Lemma author_names_inv entry names :
  res_mapM (fun author => dot_text (find (atom "name") author)) (findall (atom "author") entry)
  = Ok names ->
  authors_named entry.
Proof.
  unfold authors_named. revert names.
  induction (findall (atom "author") entry) as [|author authors IH]; intros names; simpl.
  - constructor.
  - destruct (find (atom "name") author) as [el|] eqn:Hel; simpl; [|done].
    destruct (res_mapM _ authors) as [rest|] eqn:Hrest; simpl; [|done].
    intros _. constructor; [by rewrite Hel|]. by eapply IH.
Qed.

Lemma pieces_at_no_separator c s : c ∉ s -> pieces_at c s = [s].
Proof.
  induction s as [|a s IH]; simpl; [done|].
  intros Hnotin. destruct (N.eqb_spec c a) as [->|Hne].
  - exfalso. apply Hnotin. by left.
  - rewrite IH; [done|]. intros ?. apply Hnotin. by right.
Qed.

(** The last piece is what follows the last separator. *)
Lemma last_piece c s segment :
  last (pieces_at c s) = Some segment ->
  (c ∉ segment)
  /\ exists before, s = before ++ segment /\ (before = [] \/ last before = Some c).
Proof.
  revert segment. induction s as [|a s IH]; intros segment; simpl.
  - intros [= <-]. split; [by intros ?%elem_of_nil|]. exists []. by split; [|left].
  - pose proof (pieces_at_nonempty c s) as Hne.
    destruct (last (pieces_at c s)) as [seg|] eqn:Hlast; [|by apply last_None in Hlast].
    destruct (IH seg eq_refl) as (Hfree & before & Hs & Hbefore).
    destruct (N.eqb_spec c a) as [->|Hca].
    + rewrite last_cons, Hlast. intros [= <-].
      split; [done|]. exists (a :: before). split; [by rewrite Hs|]. right.
      destruct Hbefore as [->|Hbefore]; [done|]. by rewrite last_cons, Hbefore.
    + destruct (pieces_at c s) as [|p ps] eqn:Hps; [done|].
      destruct ps as [|p' ps].
      * injection Hlast as ->. intros [= <-].
        assert (s = seg) as ->.
        { rewrite <- (join_pieces_at c s). by rewrite Hps. }
        split; [intros [->|?]%elem_of_cons; done|]. exists []. by split; [|left].
      * rewrite last_cons. rewrite last_cons in Hlast.
        destruct (last (p' :: ps)) as [seg'|] eqn:Hlast'; [|by apply last_None in Hlast'].
        injection Hlast as ->. intros [= <-].
        split; [done|]. exists (a :: before). split; [by rewrite Hs|]. right.
        destruct Hbefore as [->|Hbefore].
        -- simpl in Hs. subst s.
           rewrite (pieces_at_no_separator c seg Hfree) in Hps. done.
        -- by rewrite last_cons, Hbefore.
Qed.

Lemma paper_of_entry_closed entry title summary published url :
  text_at "title" entry = Some title ->
  text_at "summary" entry = Some summary ->
  text_at "published" entry = Some published ->
  text_at "id" entry = Some url ->
  authors_named entry ->
  ArxivAPI.paper_of_entry entry = Ok (paper_dict entry title summary published url).
Proof.
  intros Ht Hs Hp Hu Hauthors.
  apply text_at_find in Ht as (? & Ht & Ht'), Hs as (? & Hs & Hs'),
      Hp as (? & Hp & Hp'), Hu as (? & Hu & Hu').
  unfold ArxivAPI.paper_of_entry, paper_dict, author_names.
  rewrite Ht, Hs, Hp, Hu. cbn [dot_text res_bind]. rewrite Ht', Hs', Hp', Hu'.
  cbn [dot_strip dot_split res_bind text_val py_slice_to].
  rewrite (author_names_ok _ Hauthors). cbn [res_bind].
  unfold last_item. change (py "/") with [47%N]. rewrite py_split_single.
  pose proof (pieces_at_nonempty 47 url) as Hne.
  destruct (last (pieces_at 47 url)) as [segment|] eqn:Hlast; [|by apply last_None in Hlast].
  cbn [res_bind default from_option id]. by rewrite <- list_fmap_compose.
Qed.

Lemma paper_of_entry_inv entry paper :
  ArxivAPI.paper_of_entry entry = Ok paper ->
  exists title summary published url,
    text_at "title" entry = Some title /\ text_at "summary" entry = Some summary
    /\ text_at "published" entry = Some published /\ text_at "id" entry = Some url
    /\ authors_named entry
    /\ paper = paper_dict entry title summary published url.
Proof.
  intros H. pose proof H as H'. unfold ArxivAPI.paper_of_entry in H'.
  repeat step_res.
  repeat match goal with
         | E : dot_text _ = Ok _ |- _ => apply dot_text_ok in E as (? & ? & ->)
         | E : dot_strip ?t = Ok _ |- _ => destruct t eqn:?; [clear E|discriminate E]
         | E : dot_split _ ?t = Ok _ |- _ => destruct t eqn:?; [clear E|discriminate E]
         | E : py_slice_to _ (text_val ?t) = Ok _ |- _ =>
             destruct t eqn:?; [clear E|discriminate E]
         end.
  match goal with E : res_mapM _ _ = Ok _ |- _ => apply author_names_inv in E end.
  eexists _, _, _, _.
  assert (forall name s, (exists el, find (atom name) entry = Some el /\ text_of el = Some s)
                         -> text_at name entry = Some s) as Hat.
  { intros name s. apply text_at_find. }
  split; [apply Hat; eauto|]. split; [apply Hat; eauto|].
  split; [apply Hat; eauto|]. split; [apply Hat; eauto|].
  split; [done|].
  erewrite paper_of_entry_closed in H; [by injection H as <-|..]; try done; apply Hat; eauto.
Qed.

(** X2: An entry yields a paper exactly when its title, summary, published and
    id elements are there and have a text, and every author element has a
    name.  Authors are not required: an entry without any is accepted. *)
Theorem paper_of_entry_succeeds_iff entry :
  (exists paper, ArxivAPI.paper_of_entry entry = Ok paper)
  <-> (exists title summary published url,
         text_at "title" entry = Some title /\ text_at "summary" entry = Some summary
         /\ text_at "published" entry = Some published /\ text_at "id" entry = Some url)
      /\ authors_named entry.
Proof.
  split.
  - intros [paper (title & summary & published & url & Ht & Hs & Hp & Hu & Ha & _)%paper_of_entry_inv].
    split; [|done]. by exists title, summary, published, url.
  - intros [(title & summary & published & url & Ht & Hs & Hp & Hu) Hauthors].
    eexists. by apply (paper_of_entry_closed entry title summary published url).
Qed.

Lemma paper_of_entry_succeeds_iff_witness :
  exists paper, ArxivAPI.paper_of_entry sample_entry = Ok paper.
Proof.
  apply (proj2 (paper_of_entry_succeeds_iff sample_entry)).
  split.
  - exists (py " Deep nets "), (py " We study nets. "), (py "2020-01-02T03:04:05Z"),
      (py "http://arxiv.org/abs/2001.00001v1").
    repeat split; vm_compute; reflexivity.
  - repeat constructor; vm_compute; discriminate.
Defined.

(** X3: The identifier of a paper is derived from its url: it is the part of the
    url after the last slash (the whole url when it has none), and holds no
    slash itself. *)
Theorem arxiv_id_is_last_segment entry paper :
  ArxivAPI.paper_of_entry entry = Ok paper ->
  exists url arxiv_id before,
    text_at "id" entry = Some url
    /\ paper !! py "url" = Some (VStr url)
    /\ paper !! py "arxiv_id" = Some (VStr arxiv_id)
    /\ url = before ++ arxiv_id
    /\ (47%N ∉ arxiv_id)
    /\ (before = [] \/ last before = Some 47%N).
Proof.
  intros (title & summary & published & url & _ & _ & _ & Hurl & _ & ->)%paper_of_entry_inv.
  pose proof (pieces_at_nonempty 47 url) as Hne.
  destruct (last (pieces_at 47 url)) as [segment|] eqn:Hlast; [|by apply last_None in Hlast].
  destruct (last_piece _ _ _ Hlast) as (Hfree & before & Hsplit & Hbefore).
  exists url, segment, before. split; [done|].
  unfold paper_dict. rewrite Hlast. cbn [default from_option id].
  split; [do 4 (rewrite lookup_insert_ne by done); by rewrite lookup_insert_eq|].
  split; [do 5 (rewrite lookup_insert_ne by done); by rewrite lookup_insert_eq|].
  done.
Qed.

Lemma arxiv_id_is_last_segment_witness :
  exists url arxiv_id before,
    text_at "id" sample_entry = Some url
    /\ sample_paper !! py "url" = Some (VStr url)
    /\ sample_paper !! py "arxiv_id" = Some (VStr arxiv_id)
    /\ url = before ++ arxiv_id
    /\ (47%N ∉ arxiv_id)
    /\ (before = [] \/ last before = Some 47%N).
Proof.
  apply (arxiv_id_is_last_segment sample_entry sample_paper).
  vm_compute. reflexivity.
Defined.

(** X4: What a paper holds: the title and the abstract are the texts of the
    entry without the whitespace around them, the date is the first ten
    characters of the published text, the authors are the names in the
    order of the entry, and there are exactly six keys. *)
Theorem paper_fields_normalised entry paper :
  ArxivAPI.paper_of_entry entry = Ok paper ->
  exists title summary published,
    text_at "title" entry = Some title
    /\ text_at "summary" entry = Some summary
    /\ text_at "published" entry = Some published
    /\ paper !! py "title" = Some (VStr (py_strip title))
    /\ trim_of title (py_strip title)
    /\ paper !! py "abstract" = Some (VStr (py_strip summary))
    /\ trim_of summary (py_strip summary)
    /\ paper !! py "published" = Some (VStr (take 10 published))
    /\ (length (take 10 published) <= 10)%nat
    /\ paper !! py "authors" = Some (VList (author_names entry))
    /\ length (author_names entry) = length (findall (atom "author") entry)
    /\ dom paper = {[ py "title"; py "authors"; py "abstract"; py "published";
                      py "url"; py "arxiv_id" ]}.
Proof.
  intros (title & summary & published & url & Ht & Hs & Hp & _ & _ & ->)%paper_of_entry_inv.
  exists title, summary, published. unfold paper_dict.
  split; [done|]. split; [done|]. split; [done|].
  split; [by rewrite lookup_insert_eq|]. split; [apply py_strip_spec|].
  split; [do 2 (rewrite lookup_insert_ne by done); by rewrite lookup_insert_eq|].
  split; [apply py_strip_spec|].
  split; [do 3 (rewrite lookup_insert_ne by done); by rewrite lookup_insert_eq|].
  split; [rewrite length_take; lia|].
  split; [rewrite lookup_insert_ne by done; by rewrite lookup_insert_eq|].
  split; [unfold author_names; by rewrite length_fmap|].
  rewrite !dom_insert_L, dom_empty_L. set_solver.
Qed.

Lemma paper_fields_normalised_witness :
  sample_paper !! py "title" = Some (VStr (py "Deep nets"))
  /\ sample_paper !! py "published" = Some (VStr (py "2020-01-02")).
Proof.
  destruct (paper_fields_normalised sample_entry sample_paper)
    as (title & summary & published & Ht & Hs & Hp & Htitle & _ & _ & _ & Hpub & _).
  - vm_compute. reflexivity.
  - injection Ht as <-. injection Hp as <-. split.
    + rewrite Htitle. vm_compute. reflexivity.
    + rewrite Hpub. vm_compute. reflexivity.
Defined.

(** ** [SemanticScholarAPI.get_related_works] *)

(** X5: The related works are the first five items of the [references] of the
    record when that is a list (the first five characters when it is a
    string); with no record, no [references], or a [references] of any other
    kind the result is the empty list.  The call never raises. *)
Theorem related_works_first_five w st arxiv_id :
  let lookup := scholar_request (py_str (str_other w) arxiv_id) in
  let paper_data := scholar_outcome (scholar_reply_at w (trace st ++ [lookup])) in
  exists works,
    SemanticScholarAPI.get_related_works arxiv_id w st = (Ok works, record st [lookup])
    /\ works = match paper_data !! py "references" with
               | Some (VList references) => VList (take 5 references)
               | Some (VStr references) => VStr (take 5 references)
               | _ => VList []
               end
    /\ match works with
       | VList l => (length l <= 5)%nat
       | VStr s => (length s <= 5)%nat
       | _ => False
       end.
Proof.
  intros lookup paper_data. rewrite get_related_works_run. fold lookup. fold paper_data.
  eexists. split; [reflexivity|].
  assert (related_of paper_data
          = match paper_data !! py "references" with
            | Some (VList references) => VList (take 5 references)
            | Some (VStr references) => VStr (take 5 references)
            | _ => VList []
            end) as ->.
  { unfold related_of, dict_get.
    destruct (paper_data !! py "references") as [v|] eqn:Hrefs.
    - assert (truthy (VDict paper_data) = true) as ->.
      { unfold truthy. rewrite bool_decide_eq_false_2; [done|].
        intros Hsize%map_size_empty_iff. by rewrite Hsize, lookup_empty in Hrefs. }
      rewrite bool_decide_eq_true_2 by by eexists. simpl. by destruct v.
    - rewrite (bool_decide_eq_false_2 (is_Some None)) by by intros [? ?].
      by rewrite andb_false_r. }
  split; [done|].
  destruct (paper_data !! py "references") as [[]|]; simpl; rewrite ?length_take; lia.
Qed.

(** ** [get_groq_client] *)

(** X6: The environment is read at most once: a second call returns what the
    first returned and does not read the environment; the first call reads
    it only when nothing is cached. *)
Theorem groq_client_cached w st :
  let first := get_groq_client w st in
  let second := get_groq_client w first.2 in
  second.1 = first.1
  /\ groq_client_cache first.2 = Some (client_available w st)
  /\ filter reads_environment (trace second.2) = filter reads_environment (trace first.2)
  /\ match groq_client_cache st with
     | Some _ => filter reads_environment (trace first.2) = filter reads_environment (trace st)
     | None => filter reads_environment (trace first.2)
               = filter reads_environment (trace st) ++ [Getenv (py "GROQ_API_KEY")]
     end.
Proof.
  cbv zeta. rewrite !get_groq_client_run. cbn [fst snd].
  unfold client_available, after_client, record. destruct st as [tr [[|]|]]; simpl.
  - done.
  - rewrite !filter_app. simpl. by rewrite !app_nil_r.
  - destruct (truthy (text_val (getenv_at w _))); simpl; rewrite !filter_app; simpl;
      by rewrite ?app_nil_r.
Qed.

(** ** The operations of [GroqAI] *)

(** X7: Without a client, each of the five operations returns its fixed answer
    (the empty list for the keywords) and sends nothing to any external
    source, whatever the papers are. *)
Theorem no_client_no_request op papers w st :
  client_available w st = false ->
  run_op op papers w st = (Ok (no_client op), after_client w st)
  /\ exists new,
       trace (after_client w st) = trace st ++ new
       /\ Forall (fun e => external_call e = false) new.
Proof.
  intros Hclient. split.
  - destruct op; simpl;
      unfold GroqAI.summarize_papers, GroqAI.explain_like_15, GroqAI.extract_keywords,
        GroqAI.analyze_trends, GroqAI.identify_challenges;
      unfold mbind at 1; unfold M_bind at 1; rewrite get_groq_client_run, Hclient; done.
  - unfold client_available, after_client, record in *.
    destruct st as [tr [[|]|]]; simpl in *; [done|..].
    + eexists. split; [done|]. by repeat constructor.
    + rewrite Hclient. simpl. rewrite <- app_assoc. eexists. split; [done|].
      by repeat constructor.
Qed.

Lemma no_client_no_request_witness :
  run_op Summarize [sample_paper] empty_key_world fresh_process
  = (Ok (VStr (py "Error: Groq client not available")),
     after_client empty_key_world fresh_process).
Proof.
  apply (no_client_no_request Summarize [sample_paper] empty_key_world fresh_process).
  reflexivity.
Defined.

(** X8: When the completion comes without content, the four text operations
    return [None] (no error text), and the keyword extraction returns the
    empty list. *)
Theorem empty_completion_gives_none op papers text w st :
  GroqAI.combined_text papers = Ok text ->
  client_available w st = true ->
  groq_reply_at w (trace (after_client w st) ++ [request_of op text]) = GroqCompletion None ->
  run_op op papers w st
  = (Ok (match op with Keywords => VList [] | _ => VNone end),
     record (after_client w st) [request_of op text]).
Proof.
  intros Htext Hclient Hreply. rewrite (run_op_run op papers text w st Htext).
  unfold analysis_value, after_analysis. rewrite Hclient, Hreply. by destruct op.
Qed.

Lemma empty_completion_gives_none_witness :
  run_op Trends [sample_paper] no_content_world fresh_process
  = (Ok VNone,
     record (after_client no_content_world fresh_process)
            [request_of Trends (py "We study nets.")]).
Proof.
  apply (empty_completion_gives_none Trends [sample_paper] (py "We study nets.")
           no_content_world fresh_process); vm_compute; reflexivity.
Defined.

(** X9: The abstracts are collected before the [try]: with a client, a first
    paper without an [abstract] makes each operation raise [KeyError], and no
    request is sent. *)
Theorem missing_abstract_raises (op : analysis_op) (paper : pydict) (papers : list pydict) w st :
  client_available w st = true ->
  paper !! py "abstract" = None ->
  run_op op (paper :: papers) w st = (Raise (key_error (py "abstract")), after_client w st).
Proof.
  intros Hclient Hmissing.
  assert (GroqAI.combined_text (paper :: papers) = Raise (key_error (py "abstract"))) as Htext.
  { unfold GroqAI.combined_text. simpl. unfold dict_getitem at 1. by rewrite Hmissing. }
  destruct op; simpl;
    unfold GroqAI.summarize_papers, GroqAI.explain_like_15, GroqAI.extract_keywords,
      GroqAI.analyze_trends, GroqAI.identify_challenges;
    unfold mbind at 1; unfold M_bind at 1; rewrite get_groq_client_run, Hclient;
    cbn [negb]; unfold mbind at 1; unfold M_bind at 1; unfold lift at 1;
    by rewrite Htext.
Qed.

Lemma missing_abstract_raises_witness :
  run_op Explain [∅] unknown_paper_world fresh_process
  = (Raise (key_error (py "abstract")), after_client unknown_paper_world fresh_process).
Proof.
  apply (missing_abstract_raises Explain ∅ [] unknown_paper_world fresh_process);
    reflexivity.
Defined.

(** ** The calls of [ResearchAPI.search_papers] *)







(** X12: A record without [citationCount] is reported with 0 citations, as a
    record with the count 0 is; likewise for [referenceCount]. *)
Theorem missing_counts_default_to_zero (paper_details : pydict) :
  truthy (VDict paper_details) = true ->
  paper_details !! py "citationCount" = None ->
  ResearchAPI.citation_counts_of paper_details !! py "citations" = Some (VInt 0)
  /\ ResearchAPI.citation_counts_of paper_details
     = ResearchAPI.citation_counts_of (<[py "citationCount" := VInt 0]> paper_details).
Proof.
  intros Htruthy Hmissing. unfold ResearchAPI.citation_counts_of. rewrite Htruthy.
  assert (truthy (VDict (<[py "citationCount" := VInt 0]> paper_details)) = true) as ->.
  { unfold truthy. rewrite bool_decide_eq_false_2; [done|].
    intros Hsize%map_size_empty_iff. by apply insert_non_empty in Hsize. }
  unfold dict_get. rewrite Hmissing. split.
  - by rewrite lookup_insert_eq.
  - rewrite (lookup_insert_eq paper_details).
    by rewrite (lookup_insert_ne paper_details) by done.
Qed.

Lemma missing_counts_default_to_zero_witness :
  ResearchAPI.citation_counts_of (<[py "paperId" := VStr (py "649def34")]> ∅) !! py "citations"
  = Some (VInt 0).
Proof.
  apply (missing_counts_default_to_zero (<[py "paperId" := VStr (py "649def34")]> ∅));
    reflexivity.
Defined.

(** ** [ResearchAPI.export_results] *)

(** X13: The export reads seven fields of the bundle and nothing else: two
    bundles that agree on them give the same document (the citation block,
    for one, is never exported). *)
Theorem export_reads_seven_fields (query : pystr) (bundle1 bundle2 : pydict) w st :
  Forall (fun key => bundle1 !! key = bundle2 !! key) exported_fields ->
  ResearchAPI.export_results query bundle1 w st = ResearchAPI.export_results query bundle2 w st.
Proof.
  intros Hagree. rewrite !export_results_run.
  assert (Markdown.export_body (str_other w) query bundle1
          = Markdown.export_body (str_other w) query bundle2) as Hbody.
  { unfold exported_fields in Hagree.
    repeat match goal with
           | H : Forall _ (_ :: _) |- _ => apply Forall_cons in H as [? H]
           end.
    unfold Markdown.export_body, dict_getitem.
    repeat match goal with
           | H : bundle1 !! _ = bundle2 !! _ |- _ => rewrite H; clear H
           end.
    reflexivity. }
  unfold exported. by rewrite Hbody.
Qed.

Lemma export_reads_seven_fields_witness :
  ResearchAPI.export_results (py "deep learning") unavailable_bundle
    unknown_paper_world fresh_process
  = ResearchAPI.export_results (py "deep learning") uncited_bundle
      unknown_paper_world fresh_process.
Proof.
  apply (export_reads_seven_fields (py "deep learning") unavailable_bundle uncited_bundle
           unknown_paper_world fresh_process).
  repeat constructor.
Defined.

(** X14: Only the first five related works are exported: the document for a list
    of related works is the document for its first five. *)
Theorem export_first_five_related (query : pystr) (bundle : pydict) (works : list pyval) w st :
  ResearchAPI.export_results query (<[py "related_works" := VList works]> bundle) w st
  = ResearchAPI.export_results query
      (<[py "related_works" := VList (take 5 works)]> bundle) w st.
Proof.
  rewrite !export_results_run.
  assert (Markdown.export_body (str_other w) query
            (<[py "related_works" := VList works]> bundle)
          = Markdown.export_body (str_other w) query
              (<[py "related_works" := VList (take 5 works)]> bundle)) as Hbody.
  { unfold Markdown.export_body, dict_getitem.
    rewrite !lookup_insert_eq. repeat (rewrite lookup_insert_ne by done).
    repeat match goal with
           | |- res_bind ?r _ = res_bind ?r _ =>
               destruct r as [?|?]; [cbn [res_bind]|reflexivity]
           end.
    cbn [res_bind py_slice_to py_iter]. by rewrite take_take. }
  unfold exported. by rewrite Hbody.
Qed.

(** X15: When one of the seven fields is missing, the export returns [None] and
    reports one error; it does not raise. *)
Theorem export_missing_field (query : pystr) (bundle : pydict) (key : pystr) w st :
  key ∈ exported_fields ->
  bundle !! key = None ->
  exists message,
    ResearchAPI.export_results query bundle w st
    = (Ok None,
       record st [Streamlit (StError (py "Error generating export: " ++ message))]).
Proof.
  intros Hkey Hmissing. rewrite export_results_run. unfold exported.
  destruct (Markdown.export_body (str_other w) query bundle) as [document|e] eqn:Hbody;
    [|by exists (exn_msg e)].
  exfalso. unfold Markdown.export_body in Hbody. repeat step_res.
  unfold exported_fields in Hkey.
  repeat match goal with
         | H : key ∈ _ :: _ |- _ => apply elem_of_cons in H as [->|H]
         | H : key ∈ [] |- _ => by apply elem_of_nil in H
         end;
    match goal with
    | H : dict_getitem bundle ?k = Ok _, H' : bundle !! ?k = None |- _ =>
        unfold dict_getitem in H; rewrite H' in H; discriminate H
    end.
Qed.

Lemma export_missing_field_witness :
  exists message,
    ResearchAPI.export_results (py "deep learning") (delete (py "keywords") unavailable_bundle)
      unknown_paper_world fresh_process
    = (Ok None,
       record fresh_process
         [Streamlit (StError (py "Error generating export: " ++ message))]).
Proof.
  apply (export_missing_field (py "deep learning")
           (delete (py "keywords") unavailable_bundle) (py "keywords")
           unknown_paper_world fresh_process).
  - vm_compute. do 3 right. left.
  - vm_compute. reflexivity.
Defined.

(** ** [create_citation_visualization] *)





(** ** The keywords *)

Lemma trim_of_free c piece stripped :
  trim_of piece stripped -> c ∉ piece -> c ∉ stripped.
Proof.
  intros (_ & before & after & -> & _) Hfree Hin. apply Hfree.
  apply elem_of_app. right. apply elem_of_app. by left.
Qed.

(** X17: Every keyword read off a completion is non-empty, has no whitespace at
    either end and contains no comma. *)
Theorem keywords_are_clean content keyword :
  keyword ∈ GroqAI.stripped_nonempty (py_split (py ",") content) ->
  keyword <> [] /\ trimmed keyword /\ (44%N ∉ keyword).
Proof.
  rewrite stripped_nonempty_filter. change (py ",") with [44%N]. rewrite py_split_single.
  intros [Hne (piece & -> & Hpiece)%list_elem_of_fmap]%list_elem_of_filter.
  split; [done|].
  pose proof (py_strip_spec piece) as Htrim. split; [apply Htrim|].
  apply (trim_of_free _ piece); [done|].
  pose proof (pieces_at_free 44 content) as Hfree.
  rewrite Forall_forall in Hfree. by apply Hfree.
Qed.

Lemma keywords_are_clean_witness :
  py "AI" <> [] /\ trimmed (py "AI") /\ (44%N ∉ py "AI").
Proof.
  apply (keywords_are_clean (py "  ml,  AI ,, robotics") (py "AI")).
  vm_compute. right. left.
Defined.

(** ** The shape of a bundle *)

Lemma arxiv_outcome_papers r papers :
  arxiv_outcome r = Ok papers ->
  Forall (fun paper => exists entry title summary published url,
            paper = paper_dict entry title summary published url) papers.
Proof.
  destruct r as [e|status_code http_error document]; simpl; [done|].
  destruct (ArxivAPI.raise_for_status _ _); simpl; [|done].
  destruct document as [root|e]; simpl; [|done].
  intros Hall. apply res_mapM_Forall2 in Hall.
  induction Hall as [|entry paper entries papers Hp _ IH]; constructor; [|done].
  apply paper_of_entry_inv in Hp as (title & summary & published & url & _ & _ & _ & _ & _ & ->).
  by exists entry, title, summary, published, url.
Qed.

Lemma analysis_value_type op text w st :
  match op with
  | Keywords => exists keywords, analysis_value op text w st = VList (VStr <$> keywords)
  | _ => exists content, analysis_value op text w st = text_val content
  end.
Proof.
  unfold analysis_value, field_of_reply, keywords_of_content, degraded, no_client.
  destruct op; destruct (client_available w st);
    try destruct (groq_reply_at w _) as [e|[content|]];
    first [ by exists [] | by eexists (Some _) | by eexists | by exists None ].
Qed.

(** The bundle of a search that returned one. *)
Lemma search_papers_bundle w st query bundle st' :
  ResearchAPI.search_papers query w st = (Ok (Some bundle), st') ->
  exists paper papers st1,
    arxiv_outcome (arxiv_reply_at w (trace st ++ [arxiv_request query 5])) = Ok (paper :: papers)
    /\ bundle = (pipeline w (paper :: papers) st1).1.
Proof.
  rewrite search_papers_run. unfold search_outcome.
  destruct query as [|c query]; [done|]. cbn [record trace].
  destruct (arxiv_outcome _) as [[|paper papers]|e]; [done| |done].
  destruct (pipeline _ _ _) as [bundle' st''] eqn:Hpipe. cbn [fst snd].
  intros [= <- <-]. eexists paper, papers, _. split; [done|]. by rewrite Hpipe.
Qed.

(** X18: The kinds of values in a bundle: the papers are dictionaries with the
    six keys of a paper; the keywords are a list of strings; each of the
    four texts is a string or [None]; the citation block has its two counts;
    the related works are a list or a string, of length at most 5. *)
Theorem bundle_field_types w st query bundle st' :
  ResearchAPI.search_papers query w st = (Ok (Some bundle), st') ->
  (exists papers,
     bundle !! py "papers" = Some (VList (VDict <$> papers))
     /\ Forall (fun paper : pydict =>
                  dom paper = {[ py "title"; py "authors"; py "abstract"; py "published";
                                 py "url"; py "arxiv_id" ]}) papers)
  /\ (exists keywords, bundle !! py "keywords" = Some (VList (VStr <$> keywords)))
  /\ Forall (fun op => exists content, bundle !! field_of op = Some (text_val content))
            [Summarize; Explain; Trends; Challenges]
  /\ (exists counts,
        bundle !! py "citation_counts" = Some (VDict counts)
        /\ is_Some (counts !! py "citations") /\ is_Some (counts !! py "references"))
  /\ (exists works,
        bundle !! py "related_works" = Some works
        /\ match works with
           | VList l => (length l <= 5)%nat
           | VStr s => (length s <= 5)%nat
           | _ => False
           end).
Proof.
  intros (paper & papers & st1 & Hout & ->)%search_papers_bundle.
  unfold pipeline, bundle_of. cbn [fst].
  split.
  { exists (paper :: papers). split; [by rewrite lookup_insert_eq|].
    eapply Forall_impl; [exact (arxiv_outcome_papers _ _ Hout)|].
    intros p (entry & title & summary & published & url & ->). unfold paper_dict.
    rewrite !dom_insert_L, dom_empty_L. set_solver. }
  split.
  { do 3 (rewrite lookup_insert_ne by done). rewrite lookup_insert_eq.
    destruct (analysis_value_type Keywords (abstracts_text (paper :: papers)) w
                (after_analysis Explain (abstracts_text (paper :: papers)) w
                   (after_analysis Summarize (abstracts_text (paper :: papers)) w
                      (record (record st1 [scholar_request (first_id (paper :: papers))])
                              [scholar_request (first_id (paper :: papers))]))))
      as [keywords ->].
    by exists keywords. }
  split.
  { repeat constructor; cbn [field_of].
    - rewrite lookup_insert_ne by done. rewrite lookup_insert_eq.
      match goal with |- context [analysis_value ?op ?t ?w ?s] =>
        destruct (analysis_value_type op t w s) as [content ->] end. by exists content.
    - do 2 (rewrite lookup_insert_ne by done). rewrite lookup_insert_eq.
      match goal with |- context [analysis_value ?op ?t ?w ?s] =>
        destruct (analysis_value_type op t w s) as [content ->] end. by exists content.
    - do 6 (rewrite lookup_insert_ne by done). rewrite lookup_insert_eq.
      match goal with |- context [analysis_value ?op ?t ?w ?s] =>
        destruct (analysis_value_type op t w s) as [content ->] end. by exists content.
    - do 7 (rewrite lookup_insert_ne by done). rewrite lookup_insert_eq.
      match goal with |- context [analysis_value ?op ?t ?w ?s] =>
        destruct (analysis_value_type op t w s) as [content ->] end. by exists content. }
  split.
  { eexists. split; [do 5 (rewrite lookup_insert_ne by done); by rewrite lookup_insert_eq|].
    unfold ResearchAPI.citation_counts_of. destruct (truthy _).
    - split; [by rewrite lookup_insert_eq|].
      rewrite lookup_insert_ne by done. by rewrite lookup_insert_eq.
    - split; [by rewrite lookup_insert_eq|].
      rewrite lookup_insert_ne by done. by rewrite lookup_insert_eq. }
  eexists. split; [do 4 (rewrite lookup_insert_ne by done); by rewrite lookup_insert_eq|].
  unfold related_of. destruct (truthy _ && _); [|simpl; lia].
  destruct (dict_get _ _ _); simpl; rewrite ?length_take; lia.
Qed.

Lemma bundle_field_types_witness :
  exists keywords, unavailable_bundle !! py "keywords" = Some (VList (VStr <$> keywords)).
Proof.
  destruct (bundle_field_types unknown_paper_world fresh_process (py "deep learning")
              unavailable_bundle
              (ResearchAPI.search_papers (py "deep learning") unknown_paper_world
                 fresh_process).2) as (_ & Hkeywords & _).
  - vm_compute. reflexivity.
  - exact Hkeywords.
Defined.

(** ** Exporting the bundle of a search *)

Lemma paper_section_ok (f : pyval -> pystr) (i : Z) (paper : pydict) :
  exportable_paper paper -> exists section, Markdown.paper_section f i (VDict paper) = Ok section.
Proof.
  intros ([title Ht] & [published Hp] & [url Hu] & [abstract Ha] & names & Hn).
  unfold Markdown.paper_section, py_getitem, dict_getitem.
  rewrite Ht, Hn, Hp, Hu, Ha. cbn [res_bind].
  unfold py_join. cbn [py_iter]. rewrite join_items_strs. cbn [res_bind]. by eexists.
Qed.

Lemma paper_sections_ok (f : pyval -> pystr) (i : Z) (papers : list pydict) :
  Forall exportable_paper papers ->
  exists sections, Markdown.paper_sections f i (VDict <$> papers) = Ok sections.
Proof.
  intros Hall. revert i.
  induction Hall as [|paper papers Hpaper _ IH]; intros i; [by eexists|].
  change (Markdown.paper_sections f i (VDict <$> paper :: papers))
    with (res_bind (Markdown.paper_section f i (VDict paper)) (fun section =>
          res_bind (Markdown.paper_sections f (i + 1) (VDict <$> papers)) (fun sections =>
          Ok (section ++ sections)))).
  destruct (paper_section_ok f i paper Hpaper) as [section ->].
  destruct (IH (i + 1)) as [sections ->]. by eexists.
Qed.

Lemma related_lines_ok (f : pyval -> pystr) (works : list pydict) :
  exists lines, res_mapM (Markdown.related_line f) (VDict <$> works) = Ok lines.
Proof.
  induction works as [|work works [lines IH]]; [by eexists|].
  rewrite fmap_cons. cbn [res_mapM]. rewrite IH. by eexists.
Qed.

Lemma paper_dict_exportable entry title summary published url :
  Forall (fun name => exists s, name = VStr s) (author_names entry) ->
  exportable_paper (paper_dict entry title summary published url).
Proof.
  intros Hnames. unfold exportable_paper, paper_dict.
  split; [by rewrite lookup_insert_eq|].
  split; [do 3 (rewrite lookup_insert_ne by done); by rewrite lookup_insert_eq|].
  split; [do 4 (rewrite lookup_insert_ne by done); by rewrite lookup_insert_eq|].
  split; [do 2 (rewrite lookup_insert_ne by done); by rewrite lookup_insert_eq|].
  rewrite lookup_insert_ne by done. rewrite lookup_insert_eq.
  induction Hnames as [|name names [s ->] _ [strs IH]]; [by exists []|].
  exists (s :: strs). by injection IH as ->.
Qed.

Lemma bundle_of_exports (f : pyval -> pystr) (query : pystr) (papers : list pydict)
    (ai_summary explain_like_15 : pyval) (keywords : list pystr) (works : list pydict)
    (citation_counts : pydict) (trends open_challenges : pyval) :
  Forall exportable_paper papers ->
  exists document,
    Markdown.export_body f query
      (bundle_of papers ai_summary explain_like_15 (VList (VStr <$> keywords))
         (VList (VDict <$> works)) citation_counts trends open_challenges)
    = Ok document.
Proof.
  intros Hexportable.
  destruct (paper_sections_ok f 1 papers Hexportable) as [sections Hsections].
  destruct (related_lines_ok f (take 5 works)) as [lines Hlines].
  unfold Markdown.export_body, dict_getitem, bundle_of.
  repeat (rewrite lookup_insert_eq || rewrite lookup_insert_ne by done).
  cbn [res_bind py_len py_iter py_slice_to]. rewrite Hsections.
  cbn [res_bind]. unfold py_join. cbn [py_iter]. rewrite join_items_strs.
  cbn [res_bind]. rewrite <- fmap_take, Hlines. cbn [res_bind]. by eexists.
Qed.

(** X19: The bundle of a search can be exported whenever every author in it is a
    string and its related works are a list of records: the export then
    returns a document and reports nothing. *)
Theorem search_bundle_exports (w : world) (st : state) (query : pystr) (bundle : pydict)
    (st' : state) (papers works : list pydict) :
  ResearchAPI.search_papers query w st = (Ok (Some bundle), st') ->
  bundle !! py "papers" = Some (VList (VDict <$> papers)) ->
  Forall (fun paper : pydict =>
            exists names, paper !! py "authors" = Some (VList (VStr <$> names))) papers ->
  bundle !! py "related_works" = Some (VList (VDict <$> works)) ->
  exists document,
    forall st2, ResearchAPI.export_results query bundle w st2 = (Ok (Some document), st2).
Proof.
  intros (paper & papers' & st1 & Hout & ->)%search_papers_bundle Hpapers Hauthors Hworks.
  unfold pipeline in *. cbn [fst] in *.
  assert (papers = paper :: papers') as ->.
  { unfold bundle_of in Hpapers. rewrite lookup_insert_eq in Hpapers.
    injection Hpapers as Hpapers.
    symmetry. apply (list_fmap_eq_inj VDict); [by intros ?? [= ->]|].
    by rewrite fmap_cons. }
  clear Hpapers.
  assert (Forall exportable_paper (paper :: papers')) as Hexportable.
  { pose proof (arxiv_outcome_papers _ _ Hout) as Hdicts.
    rewrite Forall_forall in Hauthors, Hdicts. apply Forall_forall. intros p Hp.
    destruct (Hdicts p Hp) as (entry & title & summary & published & url & ->).
    destruct (Hauthors _ Hp) as [names Hnames].
    apply paper_dict_exportable. unfold paper_dict in Hnames.
    rewrite lookup_insert_ne in Hnames by done. rewrite lookup_insert_eq in Hnames.
    injection Hnames as ->. apply Forall_fmap, Forall_forall. intros s _. by exists s. }
  lazymatch type of Hworks with
  | bundle_of _ _ _ ?k ?r _ _ _ !! _ = _ =>
      assert (r = VList (VDict <$> works)) as ->
        by (unfold bundle_of in Hworks;
            do 4 (rewrite lookup_insert_ne in Hworks by done);
            rewrite lookup_insert_eq in Hworks; congruence);
      assert (exists keywords, k = VList (VStr <$> keywords)) as [keywords ->]
        by apply (analysis_value_type Keywords)
  end.
  match goal with
  | |- context [bundle_of ?ps ?a ?b _ _ ?c ?t ?o] =>
      destruct (bundle_of_exports (str_other w) query ps a b keywords works c t o Hexportable)
        as [document Hdocument]
  end.
  exists document. intros st2. rewrite export_results_run. unfold exported.
  by rewrite Hdocument.
Qed.

Lemma search_bundle_exports_witness :
  exists document,
    forall st2,
      ResearchAPI.export_results (py "deep learning") unavailable_bundle
        unknown_paper_world st2 = (Ok (Some document), st2).
Proof.
  apply (search_bundle_exports unknown_paper_world fresh_process (py "deep learning")
           unavailable_bundle
           (ResearchAPI.search_papers (py "deep learning") unknown_paper_world
              fresh_process).2 [sample_paper] []).
  - vm_compute. reflexivity.
  - vm_compute. reflexivity.
  - repeat constructor. exists [py "Ann"; py "Bob"]. vm_compute. reflexivity.
  - vm_compute. reflexivity.
Defined.

Lemma join_items_inv i items pieces :
  join_items i items = Ok pieces -> items = VStr <$> pieces.
Proof.
  revert i pieces. induction items as [|item items IH]; intros i pieces; simpl.
  - by intros [= <-].
  - destruct item; try done.
    destruct (join_items (i + 1) items) as [rest|] eqn:Hrest; simpl; [|done].
    intros [= <-]. simpl. f_equal. by eapply IH.
Qed.

Lemma paper_sections_inv f i papers sections paper :
  Markdown.paper_sections f i papers = Ok sections ->
  paper ∈ papers ->
  exists j section, Markdown.paper_section f j paper = Ok section.
Proof.
  revert i sections. induction papers as [|p papers IH]; intros i sections; simpl.
  - by intros _ ?%elem_of_nil.
  - destruct (Markdown.paper_section f i p) as [section|] eqn:Hp; simpl; [|done].
    destruct (Markdown.paper_sections f (i + 1) papers) as [rest|] eqn:Hrest; simpl; [|done].
    intros _ [->|Hin]%elem_of_cons; [by eexists _, _|]. by eapply IH.
Qed.

(** X20: The paper source accepts an author whose name has no text and stores
    [None] for it; a bundle with such a paper cannot be exported: the export
    returns [None] and reports the error. *)
Theorem nameless_author_blocks_export (query : pystr) (bundle paper : pydict)
    (papers names : list pyval) w st :
  bundle !! py "papers" = Some (VList papers) ->
  VDict paper ∈ papers ->
  paper !! py "authors" = Some (VList names) ->
  VNone ∈ names ->
  exists message,
    ResearchAPI.export_results query bundle w st
    = (Ok None,
       record st [Streamlit (StError (py "Error generating export: " ++ message))]).
Proof.
  intros Hpapers Hpaper Hauthors Hnone. rewrite export_results_run. unfold exported.
  destruct (Markdown.export_body (str_other w) query bundle) as [document|e] eqn:Hbody;
    [|by exists (exn_msg e)].
  exfalso. unfold Markdown.export_body, dict_getitem in Hbody. rewrite Hpapers in Hbody.
  cbn [res_bind py_len py_iter] in Hbody.
  destruct (Markdown.paper_sections (str_other w) 1 papers) as [sections|] eqn:Hsections;
    [|discriminate Hbody].
  destruct (paper_sections_inv _ _ _ _ _ Hsections Hpaper) as (j & section & Hsection).
  unfold Markdown.paper_section, py_getitem, dict_getitem in Hsection.
  rewrite Hauthors in Hsection.
  destruct (paper !! py "title"); [|discriminate Hsection].
  cbn [res_bind] in Hsection. unfold py_join in Hsection. cbn [py_iter] in Hsection.
  destruct (join_items 0 names) as [pieces|] eqn:Hjoin; [|discriminate Hsection].
  apply join_items_inv in Hjoin. subst names.
  apply list_elem_of_fmap in Hnone as (s & Hs & _). discriminate Hs.
Qed.

Lemma nameless_author_blocks_export_witness :
  (ResearchAPI.search_papers (py "deep learning") empty_name_world fresh_process).1
  = Ok (Some empty_name_bundle)
  /\ exists message,
       ResearchAPI.export_results (py "deep learning") empty_name_bundle
         empty_name_world fresh_process
       = (Ok None,
          record fresh_process
            [Streamlit (StError (py "Error generating export: " ++ message))]).
Proof.
  split; [vm_compute; reflexivity|].
  eapply (nameless_author_blocks_export (py "deep learning") empty_name_bundle _ _ [VNone]
            empty_name_world fresh_process).
  - vm_compute. reflexivity.
  - left.
  - vm_compute. reflexivity.
  - left.
Defined.
